(** * TripMate: the weather route installed by [migrate_weather_complete.py]

    The migration script splices one TypeScript route handler,
    [GET /api/v1/weather], into the server's route file.  The handler is the
    value of the Python variable [new_weather_route]; this development embeds
    that handler and proves properties of it.

    Modelling conventions.
    - A JavaScript number is an exact rational ([Q]); [Math.round] is
      [floor (x + 1/2)].  The values [NaN] and [±Infinity] can only enter
      through [Number(req.query.lat)] and [Number(req.query.lon)], so the
      query carries a [jsnum] for these two.
    - The bodies answered by the providers are records following the
      provider's schema where every property the handler guards with [?.],
      [??] or [||] is optional.
    - The handler runs in a small monad that threads the list of outbound
      calls made so far and can throw; [try { } catch { }] is [try_catch].
      Diagnostic [console] output is not modelled. *)

From Stdlib Require Import QArith Qround ZArith Lia Lqa String Ascii List DecimalString.
From stdpp Require Import base option list strings.

(** ** JavaScript primitives used by the handler *)

Module Js.

Definition number := Q.
#[global] Bind Scope Q_scope with number.

(** The result of [Number(v)] for a query parameter. *)
Inductive jsnum :=
| NaN
| Infinity (negative : bool)
| Finite (q : number).

(** [Number.isFinite] *)
Definition isFinite (n : jsnum) : bool :=
  match n with Finite _ => true | _ => false end.

(** [Math.round]: the nearest integer, halves towards +infinity. *)
Definition Math_round (x : number) : number :=
  inject_Z (Qfloor (x + (1 # 2))).

Definition is_integer (x : number) : Prop :=
  (x == inject_Z (Qfloor x))%Q.

(** [a >= b] on numbers *)
Definition geq (a b : number) : bool := Qle_bool b a.

(** An index [i] of [Array.from] or [map], as a number. *)
Definition of_nat (i : nat) : number := inject_Z (Z.of_nat i).

(** Truthiness of a possibly undefined string: [undefined] and [''] are
    falsy. *)
Definition truthy (s : option string) : bool :=
  match s with
  | Some (String _ _) => true
  | _ => false
  end.

(** [a || b] where [a] is a possibly undefined string and [b] a string. *)
Definition or_str (a : option string) (b : string) : string :=
  match a with
  | Some (String c s) => String c s
  | _ => b
  end.

(** [a || b] where both may be undefined. *)
Definition or_opt (a b : option string) : option string :=
  if truthy a then a else b.

(** White space and line terminators of [String.prototype.trim], ASCII
    range. *)
Definition is_space (c : ascii) : bool :=
  let n := nat_of_ascii c in
  ((9 <=? n)%nat && (n <=? 13)%nat) || (n =? 32)%nat.

Fixpoint trimStart (s : string) : string :=
  match s with
  | String c s' => if is_space c then trimStart s' else s
  | EmptyString => EmptyString
  end.

Fixpoint trimEnd (s : string) : string :=
  match s with
  | EmptyString => EmptyString
  | String c s' =>
      match trimEnd s' with
      | EmptyString => if is_space c then EmptyString else String c EmptyString
      | t => String c t
      end
  end.

Definition trim (s : string) : string := trimEnd (trimStart s).

(** [String.prototype.toLowerCase], ASCII range. *)
Definition lower_ascii (c : ascii) : ascii :=
  let n := nat_of_ascii c in
  if (65 <=? n)%nat && (n <=? 90)%nat then ascii_of_nat (n + 32) else c.

Fixpoint toLowerCase (s : string) : string :=
  match s with
  | EmptyString => EmptyString
  | String c s' => String (lower_ascii c) (toLowerCase s')
  end.

(** [s.includes(needle)] *)
Fixpoint includes (s needle : string) : bool :=
  if String.prefix needle s then true
  else match s with
       | EmptyString => false
       | String _ s' => includes s' needle
       end.

(** The decimal text of an index inside a template literal. *)
Definition decimal (n : nat) : string :=
  NilEmpty.string_of_uint (Nat.to_uint n).

(** [i === 0 ? 'Today' : i === 1 ? 'Tomorrow' : `Day ${i + 1}`] *)
Definition day_label (i : nat) : string :=
  match i with
  | 0 => "Today"
  | 1 => "Tomorrow"
  | _ => "Day " +:+ decimal (i + 1)
  end.

(** [units === 'metric' ? Math.round(c) : Math.round(c * 9/5 + 32)] *)
Definition in_units (units : string) (c : number) : number :=
  if String.eqb units "metric" then Math_round c
  else Math_round (c * 9 / 5 + 32)%Q.

End Js.

Import Js.

(** ** Data answered by the upstream providers *)

(** The JSON bodies of the Google Weather endpoints, restricted to the
    properties the handler reads. *)
Module Google.

Record Temperature := { degrees : option number }.
Record Description := { text : option string }.
Record WeatherCondition :=
  { description : option Description; type : option string }.
Record WindSpeed := { value : option number }.
Record WindDirection :=
  { direction_degrees : option number; cardinal : option string }.
Record Wind :=
  { speed : option WindSpeed; direction : option WindDirection }.

(** Body of [currentConditions:lookup]. *)
Record CurrentData :=
  { temperature : option Temperature;
    weatherCondition : option WeatherCondition;
    relativeHumidity : option number;
    wind : option Wind }.

Record DaytimeForecast :=
  { daytime_weatherCondition : option WeatherCondition }.

Record ForecastDayData :=
  { maxTemperature : option Temperature;
    minTemperature : option Temperature;
    daytimeForecast : option DaytimeForecast }.

(** Body of [forecast/days:lookup]. *)
Record ForecastData := { forecastDays : option (list ForecastDayData) }.

(** One entry of the geocoding [results]: [geometry.location] with its
    [lat] and [lng]; [None] when [geometry] or [location] is absent, in
    which case reading [.lat] throws a [TypeError]. *)
Record GeocodeResult := { geometry_location : option (number * number) }.

(** Body of the geocoding endpoint. *)
Record GeocodeData := { results : option (list GeocodeResult) }.

End Google.

(** ** The response payload *)

(** The [current] object of a response; a property that the object does not
    carry is [None], so [{}] is [empty_current]. *)
Record CurrentConditions :=
  { temperature : option number;
    tempMin : option number;
    tempMax : option number;
    condition : option string;
    humidity : option number;
    windSpeed : option number;
    windDeg : option number;
    windDir : option string;
    icon : option string }.

Definition empty_current : CurrentConditions :=
  {| temperature := None; tempMin := None; tempMax := None; condition := None;
     humidity := None; windSpeed := None; windDeg := None; windDir := None;
     icon := None |}.

Record ForecastDay :=
  { day : string;
    high : number;
    low : number;
    day_condition : string;
    day_icon : option string }.

Record WeatherResult :=
  { current : CurrentConditions;
    forecast : list ForecastDay;
    hourly : option (list ForecastDay);
    alerts : list string;
    recommendations : list string;
    source : option string;
    error : option string }.

(** What [res.status(s).json(b)] sends. *)
Record Response := { status : nat; json : WeatherResult }.

(** The query string after the coercions of the handler's first lines:
    [lat] and [lon] are [Number(req.query.lat)] and [Number(req.query.lon)];
    the other parameters are strings or undefined. *)
Record WeatherQuery :=
  { lat : jsnum;
    lon : jsnum;
    city : option string;
    location : option string;
    units : option string }.

(** ** Outbound calls and their outcomes *)

Inductive call :=
| CurrentConditions_lookup (latitude longitude : number)
| ForecastDays_lookup (latitude longitude : number) (days : nat)
| Geocode (address : string)
| Ai_weather (place : string).

(** What [fetch] resolves to: the HTTP status and the body, [None] when the
    body is not JSON ([.json()] rejects). *)
Record FetchResponse (A : Type) := { http_status : nat; body : option A }.
Arguments http_status {A} _.
Arguments body {A} _.

(** [Response.ok]: the status is in the range 200-299. *)
Definition ok {A} (r : FetchResponse A) : bool :=
  (200 <=? http_status r)%nat && (http_status r <=? 299)%nat.

Inductive fetch_outcome (A : Type) :=
| NetworkError
| Replied (r : FetchResponse A).
Arguments NetworkError {A}.
Arguments Replied {A} r.

(** Everything outside the handler: the process environment, the clock, the
    three HTTP endpoints, and [ai.weather], which is defined elsewhere in the
    server and resolves to a payload or rejects ([None]). *)
Record World :=
  { GOOGLE_API_KEY : option string;
    getMonth : nat;
    currentConditions : number -> number -> fetch_outcome Google.CurrentData;
    forecastDaysOf : number -> number -> fetch_outcome Google.ForecastData;
    geocode : string -> fetch_outcome Google.GeocodeData;
    ai_weather : string -> option WeatherResult }.

(** ** The monad of the handler *)

Inductive exn := TypeError | FetchFailed | SyntaxError | Rejected.

Inductive outcome (A : Type) :=
| Returned (a : A)
| Thrown (e : exn).
Arguments Returned {A} a.
Arguments Thrown {A} e.

(** A computation reads the world, extends the list of calls made so far
    and returns or throws. *)
Definition M (A : Type) : Type := World -> list call -> outcome A * list call.

Definition ret {A} (a : A) : M A := fun _ tr => (Returned a, tr).

Definition bind {A B} (m : M A) (k : A -> M B) : M B :=
  fun w tr =>
    match m w tr with
    | (Returned a, tr') => k a w tr'
    | (Thrown e, tr') => (Thrown e, tr')
    end.

Definition throw {A} (e : exn) : M A := fun _ tr => (Thrown e, tr).

Definition try_catch {A} (m : M A) (handler : exn -> M A) : M A :=
  fun w tr =>
    match m w tr with
    | (Returned a, tr') => (Returned a, tr')
    | (Thrown e, tr') => handler e w tr'
    end.

Definition ask {A} (f : World -> A) : M A := fun w tr => (Returned (f w), tr).

Notation "x <- m ;; k" := (bind m (fun x => k))
  (at level 100, m at next level, right associativity).

(** [await fetch(url)]: the call is recorded; a network failure throws. *)
Definition fetch {A} (c : call) (server : World -> fetch_outcome A)
  : M (FetchResponse A) :=
  fun w tr =>
    match server w with
    | NetworkError => (Thrown FetchFailed, tr ++ [c])
    | Replied r => (Returned r, tr ++ [c])
    end.

(** [await res.json()] *)
Definition read_json {A} (r : FetchResponse A) : M A :=
  match body r with
  | Some a => ret a
  | None => throw SyntaxError
  end.

(** [await ai.weather(cityQ)] *)
Definition await_ai_weather (cityQ : string) : M WeatherResult :=
  fun w tr =>
    match ai_weather w cityQ with
    | Some r => (Returned r, tr ++ [Ai_weather cityQ])
    | None => (Thrown Rejected, tr ++ [Ai_weather cityQ])
    end.

(** ** The handler *)

(** [iconMap]: provider condition codes to icon classes. *)
Definition iconMap : list (string * string) :=
  [ ("CLEAR", "fas fa-sun");
    ("PARTLY_CLOUDY", "fas fa-cloud-sun");
    ("CLOUDY", "fas fa-cloud");
    ("RAIN", "fas fa-cloud-rain");
    ("SCATTERED_SHOWERS", "fas fa-cloud-rain");
    ("DRIZZLE", "fas fa-cloud-rain");
    ("THUNDERSTORM", "fas fa-bolt");
    ("SNOW", "fas fa-snowflake");
    ("MIST", "fas fa-smog");
    ("FOG", "fas fa-smog");
    ("WIND", "fas fa-wind") ].

(** [o[k]] on an object literal with string values. *)
Fixpoint property (o : list (string * string)) (k : string) : option string :=
  match o with
  | [] => None
  | (k', v) :: o' => if String.eqb k k' then Some v else property o' k
  end.

(** The assignments [current.tempMax = h; current.tempMin = l]. *)
Definition set_tempMax_tempMin (c : CurrentConditions) (h l : number)
  : CurrentConditions :=
  {| temperature := temperature c; tempMin := Some l; tempMax := Some h;
     condition := condition c; humidity := humidity c;
     windSpeed := windSpeed c; windDeg := windDeg c; windDir := windDir c;
     icon := icon c |}.

(** The body of [getWeatherData] after both bodies were read: reshaping the
    provider data into the payload. *)
Definition reshape (units : string) (currentData : Google.CurrentData)
    (forecastData : Google.ForecastData) : WeatherResult :=
  let tempCelsius :=
    default 22%Q (Google.temperature currentData ≫= Google.degrees) in
  let temperature_ := in_units units tempCelsius in
  let condition_ :=
    or_str ((Google.weatherCondition currentData ≫= Google.description)
              ≫= Google.text) "Clear" in
  let conditionType :=
    or_str (Google.weatherCondition currentData ≫= Google.type) "CLEAR" in
  let current_ :=
    {| temperature := Some temperature_;
       tempMin := Some (temperature_ - 5)%Q;
       tempMax := Some temperature_;
       condition := Some condition_;
       humidity := Some (default 60%Q (Google.relativeHumidity currentData));
       windSpeed :=
         Some (Math_round
                 (default 10%Q ((Google.wind currentData ≫= Google.speed)
                                  ≫= Google.value)));
       windDeg :=
         Some (default 0%Q ((Google.wind currentData ≫= Google.direction)
                              ≫= Google.direction_degrees));
       windDir :=
         Some (or_str ((Google.wind currentData ≫= Google.direction)
                         ≫= Google.cardinal) "N");
       icon := Some (or_str (property iconMap conditionType) "fas fa-cloud") |} in
  let forecast_ :=
    imap (fun i day_ =>
            let maxTemp :=
              default temperature_
                (Google.maxTemperature day_ ≫= Google.degrees) in
            let minTemp :=
              default (temperature_ - 5)%Q
                (Google.minTemperature day_ ≫= Google.degrees) in
            let dayCondition :=
              or_str (((Google.daytimeForecast day_
                          ≫= Google.daytime_weatherCondition)
                         ≫= Google.description) ≫= Google.text) "Clear" in
            let dayType :=
              or_str ((Google.daytimeForecast day_
                         ≫= Google.daytime_weatherCondition)
                        ≫= Google.type) "CLEAR" in
            {| day := day_label i;
               high := in_units units maxTemp;
               low := in_units units minTemp;
               day_condition := dayCondition;
               day_icon := Some (or_str (property iconMap dayType) "fas fa-cloud") |})
         (take 7 (default [] (Google.forecastDays forecastData))) in
  let current_ :=
    match forecast_ with
    | first :: _ => set_tempMax_tempMin current_ (high first) (low first)
    | [] => current_
    end in
  let recommendations_ :=
    (if geq temperature_ 30 then ["Stay hydrated"] else [])
      ++ (if includes (toLowerCase condition_) "rain"
             || includes (toLowerCase condition_) "shower"
          then ["Carry a raincoat"] else [])
      ++ ["Use sunscreen during midday"] in
  {| current := current_;
     forecast := forecast_;
     hourly := Some [];
     alerts := [];
     recommendations := recommendations_;
     source := Some "google-weather";
     error := None |}.

(** [getWeatherData]: both provider calls, then [reshape]; [null] ([None])
    when a call is answered with a non-success status or anything throws. *)
Definition getWeatherData (units : string) (latNum lonNum : number)
  : M (option WeatherResult) :=
  try_catch
    (currentRes <- fetch (CurrentConditions_lookup latNum lonNum)
                     (fun w => currentConditions w latNum lonNum) ;;
     if negb (ok currentRes) then ret None
     else
       currentData <- read_json currentRes ;;
       forecastRes <- fetch (ForecastDays_lookup latNum lonNum 7)
                        (fun w => forecastDaysOf w latNum lonNum) ;;
       if negb (ok forecastRes) then ret None
       else
         forecastData <- read_json forecastRes ;;
         ret (Some (reshape units currentData forecastData)))
    (fun error => ret None).

(** [[20, 22, ...][month] || 28] with the table of the coordinate branch. *)
Definition baseTemp_route (month : nat) : number :=
  match ([20; 22; 26; 30; 32; 33; 32; 31; 30; 28; 24; 21]%Q : list number) !! month with
  | Some t => if Qeq_bool t 0 then 28%Q else t
  | None => 28%Q
  end.

(** The synthetic payload of the coordinate branch, sent when
    [getWeatherData] answers [null]. *)
Definition fallback_route (month : nat) : WeatherResult :=
  let baseTemp := baseTemp_route month in
  let current_ :=
    {| temperature := Some (Math_round baseTemp);
       humidity := Some 60%Q;
       windSpeed := Some 10%Q;
       condition :=
         Some (if geq baseTemp 30 then "Sunny"
               else if geq baseTemp 25 then "Partly Cloudy" else "Cloudy");
       icon := Some "fas fa-cloud-sun";
       tempMin := None; tempMax := None; windDeg := None; windDir := None |} in
  let forecast_ :=
    (fun i =>
       {| day := day_label i;
          high := Math_round (baseTemp + of_nat (i mod 3) - 1)%Q;
          low := Math_round (baseTemp - 5 + of_nat (i mod 2))%Q;
          day_condition :=
            if (i mod 4 =? 0)%nat then "Sunny"
            else if (i mod 4 =? 1)%nat then "Partly Cloudy"
            else if (i mod 4 =? 2)%nat then "Cloudy" else "Rain";
          day_icon := Some "fas fa-cloud-sun" |}) <$> seq 0 7 in
  let recommendations_ :=
    [ "Carry light cotton clothing";
      "Stay hydrated";
      "Use sunscreen during midday" ] in
  {| current := current_; forecast := forecast_;
     recommendations := recommendations_; alerts := [];
     source := Some "fallback-route"; hourly := None; error := None |}.

(** [[20, 22, ...][month] || 28] with the table of the outer [catch]. *)
Definition baseTemp_catch (month : nat) : number :=
  match ([20; 22; 26; 30; 32; 33; 32; 31; 30; 28; 24; 21]%Q : list number) !! month with
  | Some t => if Qeq_bool t 0 then 28%Q else t
  | None => 28%Q
  end.

(** The synthetic payload of the outer [catch]. *)
Definition fallback_catch (month : nat) : WeatherResult :=
  let baseTemp := baseTemp_catch month in
  let current_ :=
    {| temperature := Some (Math_round baseTemp);
       humidity := Some 60%Q;
       windSpeed := Some 10%Q;
       condition :=
         Some (if geq baseTemp 30 then "Sunny"
               else if geq baseTemp 25 then "Partly Cloudy" else "Cloudy");
       icon := None;
       tempMin := None; tempMax := None; windDeg := None; windDir := None |} in
  let forecast_ :=
    (fun i =>
       {| day := day_label i;
          high := Math_round (baseTemp + of_nat (i mod 3) - 1)%Q;
          low := Math_round (baseTemp - 5 + of_nat (i mod 2))%Q;
          day_condition :=
            if (i mod 4 =? 0)%nat then "Sunny"
            else if (i mod 4 =? 1)%nat then "Partly Cloudy"
            else if (i mod 4 =? 2)%nat then "Cloudy" else "Rain";
          day_icon := None |}) <$> seq 0 7 in
  let recommendations_ :=
    [ "Carry light cotton clothing";
      "Stay hydrated";
      "Use sunscreen during midday";
      "Check local advisories for heat or rain" ] in
  {| current := current_; forecast := forecast_;
     recommendations := recommendations_; alerts := [];
     source := Some "fallback-route"; hourly := None; error := None |}.

(** [{ ...result, alerts: [] }] *)
Definition spread_with_alerts (result : WeatherResult) (a : list string)
  : WeatherResult :=
  {| current := current result; forecast := forecast result;
     hourly := hourly result; alerts := a;
     recommendations := recommendations result; source := source result;
     error := error result |}.

(** The payload of the two error answers, with or without [error]. *)
Definition empty_payload (e : option string) : WeatherResult :=
  {| current := empty_current; forecast := []; recommendations := [];
     alerts := []; error := e; hourly := None; source := None |}.

(** The handler of [GET /api/v1/weather].  A [return res...] inside the inner
    [try] is the [Some] of that block's value; falling out of it is [None]. *)
Definition new_weather_route (req : WeatherQuery) : M Response :=
  try_catch
    (let cityQ := trim (or_str (or_opt (city req) (location req)) "") in
     let units_ := or_str (units req) "metric" in
     key <- ask GOOGLE_API_KEY ;;
     if negb (truthy key) then
       ret {| status := 503;
              json := empty_payload (Some "Weather service not configured") |}
     else
       match lat req, lon req with
       | Finite lat_, Finite lon_ =>
           weatherData <- getWeatherData units_ lat_ lon_ ;;
           match weatherData with
           | Some data => ret {| status := 200; json := data |}
           | None =>
               month <- ask getMonth ;;
               ret {| status := 200; json := fallback_route month |}
           end
       | _, _ =>
           if negb (truthy (Some cityQ)) then
             ret {| status := 400; json := empty_payload None |}
           else
             sent <-
               try_catch
                 (geocodeRes <- fetch (Geocode cityQ)
                                  (fun w => geocode w cityQ) ;;
                  if ok geocodeRes then
                    geocodeData <- read_json geocodeRes ;;
                    match Google.results geocodeData with
                    | Some (first :: _) =>
                        match Google.geometry_location first with
                        | Some (latNum, lonNum) =>
                            weatherData <- getWeatherData units_ latNum lonNum ;;
                            match weatherData with
                            | Some data =>
                                ret (Some {| status := 200; json := data |})
                            | None => ret None
                            end
                        | None => throw TypeError
                        end
                    | _ => ret None
                    end
                  else ret None)
                 (fun e => ret None) ;;
             match sent with
             | Some response => ret response
             | None =>
                 result <- await_ai_weather cityQ ;;
                 ret {| status := 200; json := spread_with_alerts result [] |}
             end
       end)
    (fun error =>
       month <- ask getMonth ;;
       ret {| status := 200; json := fallback_catch month |}).

(** [lookup]: the handler run against a world, from an empty list of
    calls. *)
Definition lookup (req : WeatherQuery) (w : World)
  : outcome Response * list call :=
  new_weather_route req w [].

(** ** Vocabulary of the statements *)

(** What the handler can use of an answer: the parsed body of a reply with a
    success status.  A network error, a non-success status and a body that
    is not JSON all leave nothing. *)
Definition usable {A} (o : fetch_outcome A) : option A :=
  match o with
  | NetworkError => None
  | Replied r => if ok r then body r else None
  end.

Definition call_failed {A} (o : fetch_outcome A) : bool :=
  match usable o with Some _ => false | None => true end.

(** The payload [getWeatherData] builds at a place, if both calls succeed. *)
Definition provider_payload (u : string) (w : World) (la lo : number)
  : option WeatherResult :=
  match usable (currentConditions w la lo), usable (forecastDaysOf w la lo) with
  | Some currentData, Some forecastData =>
      Some (reshape u currentData forecastData)
  | _, _ => None
  end.

(** The calls [getWeatherData] makes at a place: the forecast is requested
    only after the current conditions were read. *)
Definition provider_calls (w : World) (la lo : number) : list call :=
  CurrentConditions_lookup la lo
    :: match usable (currentConditions w la lo) with
       | Some _ => [ForecastDays_lookup la lo 7]
       | None => []
       end.

(** The query's place name after fallbacks and trimming ([cityQ]). *)
Definition cityQ_of (q : WeatherQuery) : string :=
  trim (or_str (or_opt (city q) (location q)) "").

Definition has_coordinates (q : WeatherQuery) : bool :=
  isFinite (lat q) && isFinite (lon q).

Definition has_place (q : WeatherQuery) : bool := truthy (Some (cityQ_of q)).

Definition credential_present (w : World) : bool := truthy (GOOGLE_API_KEY w).

(** The first geocoding result's coordinates, when the geocoder answered
    with at least one result that carries them. *)
Definition geocoded (w : World) (c : string) : option (number * number) :=
  match usable (geocode w c) with
  | Some data =>
      match Google.results data with
      | Some (first :: _) => Google.geometry_location first
      | _ => None
      end
  | None => None
  end.

(** What the handler sends once it has reached [ai.weather]: the helper's
    payload with [alerts] reset, or the payload of the outer [catch] when the
    helper rejects. *)
Definition ai_answer (w : World) (c : string) : Response :=
  {| status := 200;
     json := match ai_weather w c with
             | Some result => spread_with_alerts result []
             | None => fallback_catch (getMonth w)
             end |}.

(** The current temperature before conversion, with its default. *)
Definition tempCelsius_of (cd : Google.CurrentData) : number :=
  default 22%Q (Google.temperature cd ≫= Google.degrees).

(** The seasonal table, as both branches spell it. *)
Definition baseline_table : list number :=
  [20; 22; 26; 30; 32; 33; 32; 31; 30; 28; 24; 21]%Q.

(** The label cycle of the synthetic forecast. *)
Definition condition_cycle : list string :=
  ["Sunny"; "Partly Cloudy"; "Cloudy"; "Rain"].




(** The payload a run sent, if it returned. *)
Definition payload_of (run : outcome Response * list call)
  : option WeatherResult :=
  match fst run with
  | Returned resp => Some (json resp)
  | Thrown _ => None
  end.

(** A payload with the [icon] properties dropped from [current] and from
    every forecast day. *)
Definition without_icons (r : WeatherResult) : WeatherResult :=
  {| current :=
       {| temperature := temperature (current r);
          tempMin := tempMin (current r); tempMax := tempMax (current r);
          condition := condition (current r); humidity := humidity (current r);
          windSpeed := windSpeed (current r); windDeg := windDeg (current r);
          windDir := windDir (current r); icon := None |};
     forecast :=
       (fun d => {| day := day d; high := high d; low := low d;
                    day_condition := day_condition d; day_icon := None |})
         <$> forecast r;
     hourly := hourly r; alerts := alerts r;
     recommendations := recommendations r; source := source r;
     error := error r |}.

(** A payload with further recommendations appended. *)
Definition with_more_recommendations (r : WeatherResult) (more : list string)
  : WeatherResult :=
  {| current := current r; forecast := forecast r; hourly := hourly r;
     alerts := alerts r; recommendations := recommendations r ++ more;
     source := source r; error := error r |}.

(** Whether a call goes to a weather endpoint at the given coordinates, or
    to another provider. *)
Definition weather_call_at (la lo : number) (c : call) : Prop :=
  match c with
  | CurrentConditions_lookup a b => a = la /\ b = lo
  | ForecastDays_lookup a b _ => a = la /\ b = lo
  | Geocode _ | Ai_weather _ => True
  end.


(** ** Sample worlds and queries *)

(** Every provider unreachable, in June. *)
Definition world_down : World :=
  {| GOOGLE_API_KEY := Some "key";
     getMonth := 5;
     currentConditions := fun _ _ => NetworkError;
     forecastDaysOf := fun _ _ => NetworkError;
     geocode := fun _ => NetworkError;
     ai_weather := fun _ => None |}.

(** The same world without the credential. *)
Definition world_unconfigured : World :=
  {| GOOGLE_API_KEY := None;
     getMonth := 5;
     currentConditions := fun _ _ => NetworkError;
     forecastDaysOf := fun _ _ => NetworkError;
     geocode := fun _ => NetworkError;
     ai_weather := fun _ => None |}.

Definition sample_current : Google.CurrentData :=
  {| Google.temperature := Some {| Google.degrees := Some 31.5%Q |};
     Google.weatherCondition :=
       Some {| Google.description := Some {| Google.text := Some "Light Rain" |};
               Google.type := Some "RAIN" |};
     Google.relativeHumidity := Some 70%Q;
     Google.wind := None |}.

(** Two forecast days; the second one lacks its maximum. *)
Definition sample_forecast : Google.ForecastData :=
  {| Google.forecastDays :=
       Some [ {| Google.maxTemperature := Some {| Google.degrees := Some 33%Q |};
                 Google.minTemperature := Some {| Google.degrees := Some 24.4%Q |};
                 Google.daytimeForecast := None |};
              {| Google.maxTemperature := None;
                 Google.minTemperature := Some {| Google.degrees := Some 25%Q |};
                 Google.daytimeForecast := None |} ] |}.

Definition sample_geocode : Google.GeocodeData :=
  {| Google.results :=
       Some [ {| Google.geometry_location := Some (18.52, 73.86)%Q |};
              {| Google.geometry_location := Some (40.71, -74)%Q |} ] |}.

(** Every provider answers. *)
Definition world_up : World :=
  {| GOOGLE_API_KEY := Some "key";
     getMonth := 0;
     currentConditions :=
       fun _ _ => Replied {| http_status := 200; body := Some sample_current |};
     forecastDaysOf :=
       fun _ _ => Replied {| http_status := 200; body := Some sample_forecast |};
     geocode :=
       fun _ => Replied {| http_status := 200; body := Some sample_geocode |};
     ai_weather := fun _ => None |}.

(** The geocoder finds nothing and [ai.weather] answers. *)
Definition world_ai : World :=
  {| GOOGLE_API_KEY := Some "key";
     getMonth := 0;
     currentConditions := fun _ _ => NetworkError;
     forecastDaysOf := fun _ _ => NetworkError;
     geocode :=
       fun _ => Replied {| http_status := 200;
                           body := Some {| Google.results := Some [] |} |};
     ai_weather := fun _ => Some (fallback_route 3) |}.

Definition query_origin_imperial : WeatherQuery :=
  {| lat := Finite 0; lon := Finite 0; city := None; location := None;
     units := Some "imperial" |}.

Definition query_pune : WeatherQuery :=
  {| lat := NaN; lon := NaN; city := Some " Pune "; location := None;
     units := None |}.

Definition query_both : WeatherQuery :=
  {| lat := Finite 18.52; lon := Finite 73.86; city := Some "Pune";
     location := None; units := None |}.


(** ** Vocabulary of the further statements *)

(** A query with another [units] parameter. *)
Definition with_units (q : WeatherQuery) (u : option string) : WeatherQuery :=
  {| lat := lat q; lon := lon q; city := city q; location := location q;
     units := u |}.

(** A query with another [location] parameter. *)
Definition with_location (q : WeatherQuery) (l : option string)
  : WeatherQuery :=
  {| lat := lat q; lon := lon q; city := city q; location := l;
     units := units q |}.

(** A string of white space only. *)
Fixpoint all_space (s : string) : bool :=
  match s with
  | EmptyString => true
  | String c s' => is_space c && all_space s'
  end.

(** The response a run sent, if it returned. *)
Definition response_of (run : outcome Response * list call)
  : option Response :=
  match fst run with
  | Returned resp => Some resp
  | Thrown _ => None
  end.

(** The current conditions answer and the forecast answers 500. *)
Definition world_no_forecast : World :=
  {| GOOGLE_API_KEY := Some "key";
     getMonth := 11;
     currentConditions :=
       fun _ _ => Replied {| http_status := 200; body := Some sample_current |};
     forecastDaysOf := fun _ _ => Replied {| http_status := 500; body := None |};
     geocode :=
       fun _ => Replied {| http_status := 200; body := Some sample_geocode |};
     ai_weather := fun _ => Some (fallback_route 3) |}.

(** The geocoder answers with a result that has no [geometry]. *)
Definition world_no_geometry : World :=
  {| GOOGLE_API_KEY := Some "key";
     getMonth := 11;
     currentConditions :=
       fun _ _ => Replied {| http_status := 200; body := Some sample_current |};
     forecastDaysOf :=
       fun _ _ => Replied {| http_status := 200; body := Some sample_forecast |};
     geocode :=
       fun _ =>
         Replied {| http_status := 200;
                    body := Some {| Google.results :=
                                      Some [ {| Google.geometry_location := None |} ] |} |};
     ai_weather := fun _ => None |}.

Definition query_blank_city : WeatherQuery :=
  {| lat := NaN; lon := NaN; city := Some "  "; location := Some "Pune";
     units := None |}.




(** The bodies [{}]. *)
Definition no_current_data : Google.CurrentData :=
  {| Google.temperature := None; Google.weatherCondition := None;
     Google.relativeHumidity := None; Google.wind := None |}.

Definition no_forecast_data : Google.ForecastData :=
  {| Google.forecastDays := None |}.

(** The provider's daily maximum and minimum in degrees, if given. *)
Definition max_degrees (d : Google.ForecastDayData) : option number :=
  Google.maxTemperature d ≫= Google.degrees.

Definition min_degrees (d : Google.ForecastDayData) : option number :=
  Google.minTemperature d ≫= Google.degrees.

(** The provider's days of a forecast body. *)
Definition days_of (fd : Google.ForecastData) : list Google.ForecastDayData :=
  default [] (Google.forecastDays fd).

(** The forecast day the handler builds from the provider's day at index
    [i], given the reported current temperature [t]. *)
Definition reported_day (u : string) (t : number) (i : nat)
    (d : Google.ForecastDayData) : ForecastDay :=
  {| day := day_label i;
     high := in_units u (default t (max_degrees d));
     low := in_units u (default (t - 5)%Q (min_degrees d));
     day_condition :=
       or_str (((Google.daytimeForecast d ≫= Google.daytime_weatherCondition)
                  ≫= Google.description) ≫= Google.text) "Clear";
     day_icon :=
       Some (or_str (property iconMap
                       (or_str ((Google.daytimeForecast d
                                   ≫= Google.daytime_weatherCondition)
                                  ≫= Google.type) "CLEAR"))
               "fas fa-cloud") |}.

(** Both endpoints answer 200 with the body [{}]. *)
Definition world_empty_bodies : World :=
  {| GOOGLE_API_KEY := Some "key";
     getMonth := 0;
     currentConditions :=
       fun _ _ => Replied {| http_status := 200; body := Some no_current_data |};
     forecastDaysOf :=
       fun _ _ => Replied {| http_status := 204; body := Some no_forecast_data |};
     geocode := fun _ => NetworkError;
     ai_weather := fun _ => None |}.


(** * The maintenance scripts *)

(** ** Python strings and the scripts' effects *)

(** The scripts work on the text of one file, [server/routes.ts], read and
    written in text mode.  A Python [str] is the list of its characters,
    here the bytes of its UTF-8 form: every pattern of the scripts is ASCII,
    and an ASCII pattern stands in a text at the same places whether the
    text is read by characters or by bytes.  An index or [-1] answered by
    [find] is an [option nat].  A script runs in a state that holds the text
    of the file and the lines printed so far, and ends by falling off its
    last statement (exit code 0) or by [exit(code)]. *)
Module Py.

Definition str := list ascii.

(** A literal. *)
Definition lit (s : string) : str := list_ascii_of_string s.

(** Whether [sub] stands at the head of [s]: [s[0:len(sub)] == sub]. *)
Fixpoint startswith (sub s : str) : bool :=
  match sub, s with
  | [], _ => true
  | _ :: _, [] => false
  | a :: sub', b :: s' => Ascii.eqb a b && startswith sub' s'
  end.

(** The scan of [find]: the lowest index, counted from [pos], at which [sub]
    stands. *)
Fixpoint find_from (sub s : str) (pos : nat) : option nat :=
  if startswith sub s then Some pos
  else match s with
       | [] => None
       | _ :: s' => find_from sub s' (S pos)
       end.

(** [s.find(sub, start)] for [start >= 0]. *)
Definition find (sub s : str) (start : nat) : option nat :=
  if (start <=? length s)%nat then find_from sub (drop start s) start
  else None.

(** The scan of [replace] for a non-empty [old]: [skip] characters of a
    match are still to be passed over. *)
Fixpoint replace_from (old new : str) (skip : nat) (s : str) : str :=
  match s with
  | [] => []
  | c :: s' =>
      match skip with
      | S k => replace_from old new k s'
      | O =>
          if startswith old s
          then new ++ replace_from old new (length old - 1) s'
          else c :: replace_from old new 0 s'
      end
  end.

(** [s.replace(old, new)]: every occurrence found from left to right, not
    overlapping; an empty [old] stands before every character and at the
    end. *)
Definition replace (old new s : str) : str :=
  match old with
  | [] => new ++ flat_map (fun c => c :: new) s
  | _ :: _ => replace_from old new 0 s
  end.

Record state := { routes_ts : str; printed : list string }.

Inductive step (A : Type) :=
| Next (a : A)
| Exit (code : nat).
Arguments Next {A} a.
Arguments Exit {A} code.

Definition Script (A : Type) : Type := state -> step A * state.

Definition pass {A} (a : A) : Script A := fun st => (Next a, st).

Definition andthen {A B} (m : Script A) (k : A -> Script B) : Script B :=
  fun st =>
    match m st with
    | (Next a, st') => k a st'
    | (Exit code, st') => (Exit code, st')
    end.

(** [with open(path, 'r') as f: content = f.read()] *)
Definition read : Script str := fun st => (Next (routes_ts st), st).

(** [with open(path, 'w') as f: f.write(text)] *)
Definition write (text : str) : Script unit :=
  fun st => (Next tt, {| routes_ts := text; printed := printed st |}).

Definition print (line : string) : Script unit :=
  fun st =>
    (Next tt, {| routes_ts := routes_ts st; printed := printed st ++ [line] |}).

Definition exit {A} (code : nat) : Script A := fun st => (Exit code, st).

(** A script started on a file: the exit code and the final state. *)
Definition run (script : Script unit) (content : str) : nat * state :=
  match script {| routes_ts := content; printed := [] |} with
  | (Next _, st) => (0, st)
  | (Exit code, st) => (code, st)
  end.

End Py.

Notation "x <~ m ;; k" := (Py.andthen m (fun x => k))
  (at level 100, m at next level, right associativity).
Notation "m ;;; k" := (Py.andthen m (fun _ => k))
  (at level 100, right associativity).

(** ** migrate_weather_complete.py *)

Definition dq : string := String (ascii_of_nat 34) EmptyString.

Definition newline : string := String (ascii_of_nat 10) EmptyString.

(** The lines of the text assigned to [new_weather_route]. *)
Definition new_weather_route_lines : list string :=
  [ "  app.get('/api/v1/weather', optionalAuth, aiLimiter, async (req: any, res) => {";
    "    try {";
    "      const lat = Number(req.query.lat);";
    "      const lon = Number(req.query.lon);";
    "      const cityQ = String(req.query.city || req.query.location || '').trim();";
    "      const units = String(req.query.units || 'metric');";
    "      const key = process.env.GOOGLE_API_KEY;";
    "      ";
    "      if (!key) {";
    "        console.error('[weather] GOOGLE_API_KEY not set');";
    "        return res.status(503).json({ ";
    "          current: {}, ";
    "          forecast: [], ";
    "          recommendations: [], ";
    "          alerts: [],";
    "          error: 'Weather service not configured'";
    "        });";
    "      }";
    "";
    "      const iconMap: Record<string, string> = {";
    "        CLEAR: 'fas fa-sun',";
    "        PARTLY_CLOUDY: 'fas fa-cloud-sun',";
    "        CLOUDY: 'fas fa-cloud',";
    "        RAIN: 'fas fa-cloud-rain',";
    "        SCATTERED_SHOWERS: 'fas fa-cloud-rain',";
    "        DRIZZLE: 'fas fa-cloud-rain',";
    "        THUNDERSTORM: 'fas fa-bolt',";
    "        SNOW: 'fas fa-snowflake',";
    "        MIST: 'fas fa-smog',";
    "        FOG: 'fas fa-smog',";
    "        WIND: 'fas fa-wind',";
    "      };";
    "";
    "      const getWeatherData = async (latNum: number, lonNum: number) => {";
    "        try {";
    "          const currentUrl = `https://weather.googleapis.com/v1/currentConditions:lookup?key=${key}&location.latitude=${latNum}&location.longitude=${lonNum}`;";
    "          const currentRes = await fetch(currentUrl);";
    "          ";
    "          if (!currentRes.ok) {";
    "            console.error('[weather:google] Current conditions failed:', currentRes.status);";
    "            return null;";
    "          }";
    "";
    "          const currentData = await currentRes.json();";
    "          ";
    "          const forecastUrl = `https://weather.googleapis.com/v1/forecast/days:lookup?key=${key}&location.latitude=${latNum}&location.longitude=${lonNum}&days=7`;";
    "          const forecastRes = await fetch(forecastUrl);";
    "          ";
    "          if (!forecastRes.ok) {";
    "            console.error('[weather:google] Forecast failed:', forecastRes.status);";
    "            return null;";
    "          }";
    "";
    "          const forecastData = await forecastRes.json();";
    "";
    "          const tempCelsius = currentData.temperature?.degrees ?? 22;";
    "          const temperature = units === 'metric' ? Math.round(tempCelsius) : Math.round(tempCelsius * 9/5 + 32);";
    "          const condition = currentData.weatherCondition?.description?.text || 'Clear';";
    "          const conditionType = currentData.weatherCondition?.type || 'CLEAR';";
    "          ";
    "          const current = {";
    "            temperature,";
    "            tempMin: temperature - 5,";
    "            tempMax: temperature,";
    "            condition,";
    "            humidity: currentData.relativeHumidity ?? 60,";
    "            windSpeed: Math.round(currentData.wind?.speed?.value ?? 10),";
    "            windDeg: currentData.wind?.direction?.degrees ?? 0,";
    "            windDir: currentData.wind?.direction?.cardinal || 'N',";
    "            icon: iconMap[conditionType] || 'fas fa-cloud',";
    "          };";
    "";
    "          const forecast = (forecastData.forecastDays || []).slice(0, 7).map((day: any, i: number) => {";
    "            const maxTemp = day.maxTemperature?.degrees ?? temperature;";
    "            const minTemp = day.minTemperature?.degrees ?? (temperature - 5);";
    "            const dayCondition = day.daytimeForecast?.weatherCondition?.description?.text || 'Clear';";
    "            const dayType = day.daytimeForecast?.weatherCondition?.type || 'CLEAR';";
    "            ";
    "            return {";
    "              day: i === 0 ? 'Today' : i === 1 ? 'Tomorrow' : `Day ${i + 1}`,";
    "              high: units === 'metric' ? Math.round(maxTemp) : Math.round(maxTemp * 9/5 + 32),";
    "              low: units === 'metric' ? Math.round(minTemp) : Math.round(minTemp * 9/5 + 32),";
    "              condition: dayCondition,";
    "              icon: iconMap[dayType] || 'fas fa-cloud',";
    "            };";
    "          });";
    "";
    "          if (forecast.length > 0) {";
    "            current.tempMax = forecast[0].high;";
    "            current.tempMin = forecast[0].low;";
    "          }";
    "";
    "          const recommendations: string[] = [];";
    "          if (current.temperature >= 30) recommendations.push('Stay hydrated');";
    "          if (condition.toLowerCase().includes('rain') || condition.toLowerCase().includes('shower')) {";
    "            recommendations.push('Carry a raincoat');";
    "          }";
    "          recommendations.push('Use sunscreen during midday');";
    "";
    "          return {";
    "            current,";
    "            forecast,";
    "            hourly: [],";
    "            alerts: [],";
    "            recommendations,";
    "            source: 'google-weather',";
    "          };";
    "        } catch (error) {";
    "          console.error('[weather:google] Error:', error);";
    "          return null;";
    "        }";
    "      };";
    "";
    "      if (Number.isFinite(lat) && Number.isFinite(lon)) {";
    "        console.log('[weather:req]', { lat, lon, cityQ, units });";
    "        const weatherData = await getWeatherData(lat, lon);";
    "        if (weatherData) return res.json(weatherData);";
    "        ";
    "        const now = new Date();";
    "        const month = now.getMonth();";
    "        const baseTemp = [20, 22, 26, 30, 32, 33, 32, 31, 30, 28, 24, 21][month] || 28;";
    "        const current = { ";
    "          temperature: Math.round(baseTemp), ";
    "          humidity: 60, ";
    "          windSpeed: 10, ";
    "          condition: baseTemp >= 30 ? 'Sunny' : baseTemp >= 25 ? 'Partly Cloudy' : 'Cloudy', ";
    "          icon: 'fas fa-cloud-sun' ";
    "        };";
    "        const forecast = Array.from({ length: 7 }, (_, i) => ({";
    "          day: i === 0 ? 'Today' : i === 1 ? 'Tomorrow' : `Day ${i + 1}`,";
    "          high: Math.round(baseTemp + (i % 3) - 1),";
    "          low: Math.round(baseTemp - 5 + (i % 2)),";
    "          condition: i % 4 === 0 ? 'Sunny' : i % 4 === 1 ? 'Partly Cloudy' : i % 4 === 2 ? 'Cloudy' : 'Rain',";
    "          icon: 'fas fa-cloud-sun',";
    "        }));";
    "        const recommendations = [";
    "          'Carry light cotton clothing',";
    "          'Stay hydrated',";
    "          'Use sunscreen during midday',";
    "        ];";
    "        return res.status(200).json({ current, forecast, recommendations, alerts: [], source: 'fallback-route' });";
    "      }";
    "";
    "      if (!cityQ) {";
    "        return res.status(400).json({ current: {}, forecast: [], recommendations: [], alerts: [] });";
    "      }";
    "";
    "      try {";
    "        const geocodeUrl = `https://maps.googleapis.com/maps/api/geocode/json?address=${encodeURIComponent(cityQ)}&key=${key}`;";
    "        const geocodeRes = await fetch(geocodeUrl);";
    "        ";
    "        if (geocodeRes.ok) {";
    "          const geocodeData = await geocodeRes.json();";
    "          if (geocodeData.results && geocodeData.results.length > 0) {";
    "            const location = geocodeData.results[0].geometry.location;";
    "            const latNum = location.lat;";
    "            const lonNum = location.lng;";
    "            ";
    "            console.log('[weather:geocode]', { cityQ, lat: latNum, lon: lonNum, units });";
    "            const weatherData = await getWeatherData(latNum, lonNum);";
    "            if (weatherData) return res.json(weatherData);";
    "          }";
    "        }";
    "      } catch (e) {";
    "        console.warn('[weather:geocode:failed]', { cityQ, error: String((e as any)?.message || e) });";
    "      }";
    "";
    "      const result = await ai.weather(cityQ);";
    "      console.log('[weather:ai]', { cityQ, units });";
    "      res.json({ ...result, alerts: [] });";
    "    } catch (error) {";
    "      console.error('weather route error:', error);";
    "      const now = new Date();";
    "      const month = now.getMonth();";
    "      const baseTemp = [20, 22, 26, 30, 32, 33, 32, 31, 30, 28, 24, 21][month] || 28;";
    ("      const current = { temperature: Math.round(baseTemp), humidity: 60, windSpeed: 10, condition: baseTemp >= 30 ? " +:+ dq +:+ "Sunny" +:+ dq +:+ " : baseTemp >= 25 ? " +:+ dq +:+ "Partly Cloudy" +:+ dq +:+ " : " +:+ dq +:+ "Cloudy" +:+ dq +:+ " };");
    "      const forecast = Array.from({ length: 7 }, (_, i) => ({";
    ("        day: i === 0 ? " +:+ dq +:+ "Today" +:+ dq +:+ " : i === 1 ? " +:+ dq +:+ "Tomorrow" +:+ dq +:+ " : `Day ${i + 1}`,");
    "        high: Math.round(baseTemp + (i % 3) - 1),";
    "        low: Math.round(baseTemp - 5 + (i % 2)),";
    ("        condition: i % 4 === 0 ? " +:+ dq +:+ "Sunny" +:+ dq +:+ " : i % 4 === 1 ? " +:+ dq +:+ "Partly Cloudy" +:+ dq +:+ " : i % 4 === 2 ? " +:+ dq +:+ "Cloudy" +:+ dq +:+ " : " +:+ dq +:+ "Rain" +:+ dq +:+ ",");
    "      }));";
    "      const recommendations = [";
    ("        " +:+ dq +:+ "Carry light cotton clothing" +:+ dq +:+ ",");
    ("        " +:+ dq +:+ "Stay hydrated" +:+ dq +:+ ",");
    ("        " +:+ dq +:+ "Use sunscreen during midday" +:+ dq +:+ ",");
    ("        " +:+ dq +:+ "Check local advisories for heat or rain" +:+ dq +:+ ",");
    "      ];";
    "      res.status(200).json({ current, forecast, recommendations, alerts: [], source: 'fallback-route' });";
    "    }";
    "  });";
    "";
    "  " ].

(** [new_weather_route], the text spliced into the file. *)
Definition new_weather_route_text : Py.str :=
  Py.lit (String.concat newline new_weather_route_lines).

Definition weather_route_marker : Py.str :=
  Py.lit "  app.get('/api/v1/weather', optionalAuth, aiLimiter, async (req: any, res) => {".

Definition currency_route_marker : Py.str :=
  Py.lit "  app.get('/api/v1/currency'".

(** Lines 7-231: the weather route, up to the currency route, is replaced by
    [new_weather_route]. *)
Definition replace_weather_route : Py.Script unit :=
  content <~ Py.read ;;
  match Py.find weather_route_marker content 0 with
  | None =>
      Py.print "ERROR: Could not find weather route!" ;;;
      Py.exit 1
  | Some weather_route_start =>
      match Py.find currency_route_marker content weather_route_start with
      | None =>
          Py.print "ERROR: Could not find currency route!" ;;;
          Py.exit 1
      | Some currency_route_start =>
          let before_weather := take weather_route_start content in
          let after_weather := drop currency_route_start content in
          let new_content :=
            before_weather ++ new_weather_route_text ++ after_weather in
          Py.write new_content ;;;
          Py.print "✓ Replaced main weather route with Google Weather API"
      end
  end.

(** Lines 233-244: the two renames. *)
Definition rename_environment_variables : Py.Script unit :=
  content <~ Py.read ;;
  let content :=
    Py.replace (Py.lit "process.env.WEATHER_API_KEY")
      (Py.lit "process.env.GOOGLE_API_KEY") content in
  let content :=
    Py.replace (Py.lit "WEATHER_PROVIDER") (Py.lit "GOOGLE_WEATHER_PROVIDER")
      content in
  Py.write content ;;;
  Py.print "✓ Replaced all WEATHER_API_KEY with GOOGLE_API_KEY" ;;;
  Py.print "✓ Migration complete!".

(** The whole script. *)
Definition migrate_weather_complete : Py.Script unit :=
  replace_weather_route ;;; rename_environment_variables.

(** ** remove_post_routes.py *)

Definition first_post_marker : Py.str :=
  Py.lit "  app.post('/api/tools/weather', isJwtAuthenticated, aiLimiter, async (req: any, res) => {".

Definition second_post_marker : Py.str :=
  Py.lit "  app.post('/api/tools/weather/test'".

Definition trips_sync_marker : Py.str :=
  Py.lit "  app.post('/api/v1/trips/sync'".

Definition remove_post_routes : Py.Script unit :=
  content <~ Py.read ;;
  match Py.find first_post_marker content 0 with
  | None =>
      Py.print "ERROR: Could not find first POST weather route!" ;;;
      Py.exit 1
  | Some first_route_start =>
      match Py.find second_post_marker content first_route_start with
      | None =>
          Py.print "ERROR: Could not find second POST weather route!" ;;;
          Py.exit 1
      | Some second_route_start =>
          match Py.find trips_sync_marker content second_route_start with
          | None =>
              Py.print "ERROR: Could not find trips/sync route!" ;;;
              Py.exit 1
          | Some trips_sync_start =>
              let before_routes := take first_route_start content in
              let after_routes := drop trips_sync_start content in
              let new_content := before_routes ++ after_routes in
              Py.write new_content ;;;
              Py.print "✓ Removed POST /api/tools/weather route" ;;;
              Py.print "✓ Removed POST /api/tools/weather/test route" ;;;
              Py.print "✓ All Open-Meteo code removed!"
          end
      end
  end.

(** ** Vocabulary for the scripts *)

(** [i] is the lowest index from [start] on at which [sub] stands in [s]:
    what [s.find(sub, start)] answers when it does not answer [-1]. *)
Definition first_at (sub s : Py.str) (start i : nat) : Prop :=
  start <= i <= length s
  /\ Py.startswith sub (drop i s) = true
  /\ forall k : nat, start <= k < i -> Py.startswith sub (drop k s) = false.

(** [sub] stands nowhere in [s] from [start] on. *)
Definition absent_from (sub s : Py.str) (start : nat) : Prop :=
  forall k : nat, start <= k <= length s -> Py.startswith sub (drop k s) = false.

(** A file with both routes, and one whose currency route comes first. *)
Definition sample_routes : Py.str :=
  Py.lit "// head" ++ weather_route_marker ++ Py.lit " old WEATHER_PROVIDER }"
    ++ currency_route_marker ++ Py.lit ", h); process.env.WEATHER_API_KEY".

Definition sample_routes_misordered : Py.str :=
  currency_route_marker ++ Py.lit " ... " ++ weather_route_marker.

(** The two renames of lines 237-238, as one function on the text. *)
Definition renamed (content : Py.str) : Py.str :=
  Py.replace (Py.lit "WEATHER_PROVIDER") (Py.lit "GOOGLE_WEATHER_PROVIDER")
    (Py.replace (Py.lit "process.env.WEATHER_API_KEY")
       (Py.lit "process.env.GOOGLE_API_KEY") content).


(** A text that is foreign to a pattern at its head: it is empty or begins
    with a character the pattern does not have. *)
Definition foreign (pattern b : Py.str) : Prop :=
  match b with
  | [] => True
  | c :: _ => c ∉ pattern
  end.

(** The two patterns of the renames and what replaces them. *)
Definition old_key : Py.str := Py.lit "process.env.WEATHER_API_KEY".
Definition new_key : Py.str := Py.lit "process.env.GOOGLE_API_KEY".
Definition old_provider : Py.str := Py.lit "WEATHER_PROVIDER".
Definition new_provider : Py.str := Py.lit "GOOGLE_WEATHER_PROVIDER".

(** The file after the script [rename_environment_variables]. *)
Definition after_rename (content : Py.str) : Py.str :=
  Py.routes_ts (snd (Py.run rename_environment_variables content)).


(** ** remove_orphaned.py *)

(** The regular expressions of the script use literal characters (some of
    them escaped) and two character classes under [+].  [Re.sub] is
    [re.sub(pattern, repl, text)] for such patterns: a backtracking matcher,
    greedy under [+], tried at every position from left to right, a match
    being replaced and the search going on behind it.  ([re.DOTALL] only
    changes [.], which the patterns do not use.) *)
Module Re.

Inductive class :=
| Only (cs : list ascii)
| Except (cs : list ascii).

Definition among (cs : list ascii) (c : ascii) : bool :=
  existsb (Ascii.eqb c) cs.

Definition member (k : class) (c : ascii) : bool :=
  match k with
  | Only cs => among cs c
  | Except cs => negb (among cs c)
  end.

Inductive node :=
| Char (c : ascii)
| OneOrMore (k : class).

Definition regex := list node.

(** A run of literal characters. *)
Definition literal (s : string) : regex := Char <$> Py.lit s.

(** The greedy loop of [k+] once its first character is taken: as many
    further characters of the class as the rest of the pattern allows,
    longest first. *)
Fixpoint more (k : class) (rest : Py.str -> option Py.str) (s : Py.str)
  : option Py.str :=
  match s with
  | x :: s' =>
      if member k x
      then match more k rest s' with
           | Some t => Some t
           | None => rest s
           end
      else rest s
  | [] => rest []
  end.

(** A match of the pattern at the head of the text: what is left of the
    text behind it. *)
Fixpoint match_here (r : regex) : Py.str -> option Py.str :=
  match r with
  | [] => fun s => Some s
  | Char c :: r' =>
      fun s =>
        match s with
        | x :: s' => if Ascii.eqb c x then match_here r' s' else None
        | [] => None
        end
  | OneOrMore k :: r' =>
      fun s =>
        match s with
        | x :: s' => if member k x then more k (match_here r') s' else None
        | [] => None
        end
  end.

(** The scan of [sub] for a pattern that cannot match the empty text. *)
Fixpoint sub_from (r : regex) (repl : Py.str) (skip : nat) (s : Py.str)
  : Py.str :=
  match s with
  | [] => []
  | c :: s' =>
      match skip with
      | S k => sub_from r repl k s'
      | O =>
          match match_here r s with
          | Some rest =>
              repl ++ sub_from r repl (length s' - length rest) s'
          | None => c :: sub_from r repl 0 s'
          end
      end
  end.

Definition sub (r : regex) (repl s : Py.str) : Py.str :=
  match r with
  | [] => repl ++ flat_map (fun c => c :: repl) s
  | _ :: _ => sub_from r repl 0 s
  end.

End Re.

Definition CR : ascii := ascii_of_nat 13.
Definition LF : ascii := ascii_of_nat 10.

(** [header[^}]+\};[\r\n]+] *)
Definition definition_pattern (header : string) : Re.regex :=
  Re.literal header
    ++ [Re.OneOrMore (Re.Except ["}"%char])]
    ++ Re.literal "};"
    ++ [Re.OneOrMore (Re.Only [CR; LF])].

Definition fetchOM_header : string :=
  "      const fetchOM = async (latNum: number, lonNum: number) =>".

Definition geocodeCity_header : string :=
  "      const geocodeCity = async (q: string): Promise<{ lat: number; lon: number } | null> =>".

Definition pattern1 : Re.regex := definition_pattern fetchOM_header.

Definition pattern2 : Re.regex := definition_pattern geocodeCity_header.

Definition remove_orphaned : Py.Script unit :=
  content <~ Py.read ;;
  let content := Re.sub pattern1 [] content in
  let content := Re.sub pattern2 [] content in
  Py.write content ;;;
  Py.print "✓ Removed orphaned fetchOM function" ;;;
  Py.print "✓ Removed orphaned geocodeCity function" ;;;
  Py.print "✓ All Open-Meteo references removed!".

(** What [remove_orphaned.py] prints, always. *)
Definition removal_report : list string :=
  [ "✓ Removed orphaned fetchOM function";
    "✓ Removed orphaned geocodeCity function";
    "✓ All Open-Meteo references removed!" ].

Definition is_newline (c : ascii) : bool := Re.among [CR; LF] c.

Definition not_brace (c : ascii) : bool := negb (Re.among ["}"%char] c).

(** The text behind the leading characters that satisfy [f]. *)
Fixpoint skip_while (f : ascii -> bool) (s : Py.str) : Py.str :=
  match s with
  | x :: s' => if f x then skip_while f s' else s
  | [] => []
  end.

(** The text a definition pattern matches at the head of [s], leaving
    [rest]: the header, a non-empty body without a closing brace, then "};"
    and every line break that follows. *)
Definition is_definition (header : string) (s rest : Py.str) : Prop :=
  exists body breaks : Py.str,
    s = Py.lit header ++ body ++ Py.lit "};" ++ breaks ++ rest
    /\ body <> [] /\ forallb not_brace body = true
    /\ breaks <> [] /\ forallb is_newline breaks = true
    /\ match rest with [] => True | c :: _ => is_newline c = false end.

(** A helper definition as the pattern wants it, and one with an inner
    block. *)
Definition sample_orphan : Py.str :=
  Py.lit "  a();" ++ [LF] ++ Py.lit fetchOM_header ++ Py.lit " get(latNum);"
    ++ [LF] ++ Py.lit "      };" ++ [LF; LF] ++ Py.lit "  b();".


(** ["};" [\r\n]+], the end of a definition pattern. *)
Definition closing_pattern : Re.regex :=
  Re.literal "};" ++ [Re.OneOrMore (Re.Only [CR; LF])].



(** * Properties *)

(** ** Rounding *)

Section Rounding.

Lemma Math_round_comp (x y : number) :
  (x == y)%Q -> Math_round x = Math_round y.
Proof.
  intros E. unfold Math_round. f_equal.
  apply Qfloor_comp. now rewrite E.
Qed.

Lemma Math_round_inject_Z (z : Z) : Math_round (inject_Z z) = inject_Z z.
Proof.
  unfold Math_round. f_equal.
  unfold Qfloor, Qplus, inject_Z; cbn [Qnum Qden].
  replace (z * 2 + 1 * 1)%Z with (1 + z * 2)%Z by lia.
  change (Z.pos (1 * 2)) with 2%Z.
  rewrite Z.div_add by lia. reflexivity.
Qed.

Lemma is_integer_inject_Z (z : Z) : is_integer (inject_Z z).
Proof. unfold is_integer. now rewrite Qfloor_Z. Qed.

Lemma is_integer_comp (x y : number) :
  (x == y)%Q -> is_integer x -> is_integer y.
Proof.
  unfold is_integer. intros E H.
  rewrite <- (Qfloor_comp _ _ E). now rewrite <- E.
Qed.

Lemma Math_round_is_integer (x : number) : is_integer (Math_round x).
Proof. apply is_integer_inject_Z. Qed.


(** An integer less five is an integer: the coarse [tempMin]. *)
Lemma is_integer_minus_5 (x : number) :
  is_integer x -> is_integer (x - 5)%Q.
Proof.
  intros H. unfold is_integer in H.
  apply (is_integer_comp (inject_Z (Qfloor x - 5))).
  - rewrite H at 2. unfold Qminus, Qplus, Qopp, inject_Z, Qeq; cbn [Qnum Qden]. lia.
  - apply is_integer_inject_Z.
Qed.

(** The linear conversion at an integral Celsius value. *)
Lemma in_units_metric (c : number) : in_units "metric" c = Math_round c.
Proof. reflexivity. Qed.

Lemma in_units_imperial (c : number) :
  in_units "imperial" c = Math_round (c * 9 / 5 + 32)%Q.
Proof. reflexivity. Qed.

Lemma freezing_point : in_units "imperial" 0%Q = 32%Q.
Proof. reflexivity. Qed.

Lemma boiling_point : in_units "imperial" 100%Q = 212%Q.
Proof. reflexivity. Qed.

End Rounding.

(** ** Running the handler *)


Ltac run_monad :=
  unfold lookup, new_weather_route, getWeatherData, try_catch, bind, ask,
    ret, throw, fetch, read_json, await_ai_weather in *.

(** One step of the handler, keeping the summaries folded. *)
Ltac step := cbn -[ok provider_payload provider_calls fallback_catch].

(** Both outcomes of [ai.weather] give the same equation. *)
Ltac ask_ai :=
  match goal with
  | |- context [ai_weather ?w ?c] => destruct (ai_weather w c); reflexivity
  end.

Section Running.

Variables (w : World).

Lemma getWeatherData_run (u : string) (la lo : number) (tr : list call) :
  getWeatherData u la lo w tr
  = (Returned (provider_payload u w la lo), tr ++ provider_calls w la lo).
Proof.
  unfold provider_payload, provider_calls, usable. run_monad.
  destruct (currentConditions w la lo) as [|[s1 [b1|]]]; cbn;
    try reflexivity;
    destruct (ok _); cbn; try reflexivity;
    destruct (forecastDaysOf w la lo) as [|[s2 [b2|]]]; cbn;
    rewrite <- ?app_assoc; try reflexivity;
    destruct (ok _); cbn; reflexivity.
Qed.

Lemma lookup_without_credential (q : WeatherQuery) :
  credential_present w = false ->
  lookup q w
  = (Returned {| status := 503;
                 json := empty_payload (Some "Weather service not configured") |},
     []).
Proof.
  unfold credential_present. intros K. run_monad. now rewrite K.
Qed.

Lemma lookup_coordinates (q : WeatherQuery) (la lo : number) :
  credential_present w = true ->
  lat q = Finite la -> lon q = Finite lo ->
  lookup q w
  = (Returned {| status := 200;
                 json := default (fallback_route (getMonth w))
                           (provider_payload (or_str (units q) "metric") w la lo) |},
     provider_calls w la lo).
Proof.
  unfold credential_present. intros K Hla Hlo.
  unfold lookup, new_weather_route, try_catch, bind at 1, ask.
  rewrite K, Hla, Hlo. cbn [negb].
  unfold bind. rewrite getWeatherData_run.
  destruct (provider_payload _ w la lo); reflexivity.
Qed.

Lemma lookup_invalid_input (q : WeatherQuery) :
  credential_present w = true ->
  has_coordinates q = false -> has_place q = false ->
  lookup q w
  = (Returned {| status := 400; json := empty_payload None |}, []).
Proof.
  unfold credential_present, has_coordinates, has_place, cityQ_of.
  intros K C P.
  unfold lookup, new_weather_route, try_catch, bind at 1, ask.
  rewrite K, P. cbn [negb].
  destruct (lat q) as [| |la], (lon q) as [| |lo]; try reflexivity.
  discriminate C.
Qed.

End Running.


Section RunningPlace.

Variables (w : World) (q : WeatherQuery).
Hypothesis (K : credential_present w = true).
Hypothesis (C : has_coordinates q = false).
Hypothesis (P : has_place q = true).

Lemma lookup_place :
  lookup q w
  = match geocoded w (cityQ_of q) with
    | Some (la, lo) =>
        match provider_payload (or_str (units q) "metric") w la lo with
        | Some data =>
            (Returned {| status := 200; json := data |},
             Geocode (cityQ_of q) :: provider_calls w la lo)
        | None =>
            (Returned (ai_answer w (cityQ_of q)),
             Geocode (cityQ_of q) :: provider_calls w la lo
               ++ [Ai_weather (cityQ_of q)])
        end
    | None =>
        (Returned (ai_answer w (cityQ_of q)),
         [Geocode (cityQ_of q); Ai_weather (cityQ_of q)])
    end.
Proof.
  revert K C P.
  unfold credential_present, has_coordinates, has_place, geocoded, usable,
    ai_answer.
  intros K C P.
  unfold lookup, new_weather_route, try_catch, bind, ask, ret, throw, fetch,
    read_json, await_ai_weather.
  rewrite K. cbn [negb].
  destruct (lat q) as [| |la], (lon q) as [| |lo]; try discriminate C;
    fold (cityQ_of q); rewrite P; cbn [negb];
    (destruct (geocode w (cityQ_of q)) as [|r]; step; [ask_ai|];
     destruct (ok r); step; [|ask_ai];
     destruct (body r) as [data|]; step; [|ask_ai];
     destruct (Google.results data) as [[|first rest]|]; step; try ask_ai;
     destruct (Google.geometry_location first) as [[la' lo']|]; step; [|ask_ai];
     rewrite getWeatherData_run; step;
     destruct (provider_payload _ w la' lo'); step; [reflexivity | ask_ai]).
Qed.

End RunningPlace.

(** ** The payload built from provider data *)

Section Reshape.

Variables (u : string) (currentData : Google.CurrentData)
  (forecastData : Google.ForecastData).

Lemma reshape_temperature :
  temperature (current (reshape u currentData forecastData))
  = Some (in_units u (tempCelsius_of currentData)).
Proof.
  unfold reshape, tempCelsius_of. cbn zeta.
  destruct (imap _ _); reflexivity.
Qed.


Lemma reshape_alerts : alerts (reshape u currentData forecastData) = [].
Proof. reflexivity. Qed.



(** Lines 117-120: with a first forecast day, its [high] and [low] are
    [tempMax] and [tempMin]; without one the estimate of lines 92-93
    stays. *)
Lemma reshape_tempMin_tempMax :
  match forecast (reshape u currentData forecastData) with
  | first :: _ =>
      tempMin (current (reshape u currentData forecastData))
      = Some (low first)
      /\ tempMax (current (reshape u currentData forecastData))
         = Some (high first)
  | [] =>
      tempMin (current (reshape u currentData forecastData))
      = Some (in_units u (tempCelsius_of currentData) - 5)%Q
      /\ tempMax (current (reshape u currentData forecastData))
         = Some (in_units u (tempCelsius_of currentData))
  end.
Proof.
  unfold reshape, tempCelsius_of. cbn zeta. cbn [forecast current].
  destruct (imap _ _); split; reflexivity.
Qed.

End Reshape.

(** ** The synthetic payloads *)

Section Fallback.


Lemma baseTemp_route_nth (month : nat) :
  baseTemp_route month = nth month baseline_table 28%Q.
Proof.
  do 12 (destruct month as [|month]; [reflexivity|]).
  destruct month; reflexivity.
Qed.

Lemma baseTemp_catch_route (month : nat) :
  baseTemp_catch month = baseTemp_route month.
Proof. reflexivity. Qed.

Lemma baseTemp_route_integral (month : nat) :
  exists z : Z, baseTemp_route month = inject_Z z.
Proof.
  do 12 (destruct month as [|month]; [eexists; reflexivity|]).
  exists 28%Z. destruct month; reflexivity.
Qed.

Lemma Math_round_integral_sum (z a b : Z) :
  (Math_round (inject_Z z + inject_Z a + inject_Z b)
   == inject_Z z + inject_Z a + inject_Z b)%Q.
Proof.
  rewrite (Math_round_comp _ (inject_Z (z + a + b))).
  - rewrite Math_round_inject_Z. now rewrite !inject_Z_plus.
  - now rewrite !inject_Z_plus.
Qed.

Lemma high_formula (b : number) (k : nat) :
  (exists z : Z, b = inject_Z z) ->
  (Math_round (b + of_nat k - 1) == b + of_nat k - 1)%Q.
Proof.
  intros [z ->]. unfold of_nat.
  exact (Math_round_integral_sum z (Z.of_nat k) (-1)).
Qed.

Lemma low_formula (b : number) (k : nat) :
  (exists z : Z, b = inject_Z z) ->
  (Math_round (b - 5 + of_nat k) == b - 5 + of_nat k)%Q.
Proof.
  intros [z ->]. unfold of_nat.
  exact (Math_round_integral_sum z (-5) (Z.of_nat k)).
Qed.


Lemma fallback_route_forecast_length (month : nat) :
  length (forecast (fallback_route month)) = 7.
Proof. reflexivity. Qed.

Lemma fallback_catch_forecast_length (month : nat) :
  length (forecast (fallback_catch month)) = 7.
Proof. reflexivity. Qed.

Lemma fallback_route_day (month i : nat) :
  i < 7 ->
  exists d : ForecastDay,
    forecast (fallback_route month) !! i = Some d
    /\ day d = day_label i
    /\ high d = Math_round (baseTemp_route month + of_nat (i mod 3) - 1)%Q
    /\ low d = Math_round (baseTemp_route month - 5 + of_nat (i mod 2))%Q
    /\ day_condition d = nth (i mod 4) condition_cycle "Rain"
    /\ day_icon d = Some "fas fa-cloud-sun".
Proof.
  intros Hi.
  do 7 (destruct i as [|i]; [eexists; repeat split; reflexivity|]).
  lia.
Qed.

Lemma fallback_catch_day (month i : nat) :
  i < 7 ->
  exists d : ForecastDay,
    forecast (fallback_catch month) !! i = Some d
    /\ day d = day_label i
    /\ high d = Math_round (baseTemp_catch month + of_nat (i mod 3) - 1)%Q
    /\ low d = Math_round (baseTemp_catch month - 5 + of_nat (i mod 2))%Q
    /\ day_condition d = nth (i mod 4) condition_cycle "Rain"
    /\ day_icon d = None.
Proof.
  intros Hi.
  do 7 (destruct i as [|i]; [eexists; repeat split; reflexivity|]).
  lia.
Qed.

End Fallback.

(** ** Input validation and configuration *)

Lemma has_coordinates_finite (q : WeatherQuery) :
  has_coordinates q = true ->
  exists la lo : number, lat q = Finite la /\ lon q = Finite lo.
Proof.
  unfold has_coordinates.
  destruct (lat q) as [| |la], (lon q) as [| |lo]; try discriminate.
  intros _. now exists la, lo.
Qed.



(** C6. While the provider credential is missing, every query is answered
    with status 503 and the message "Weather service not configured"; no
    provider is called and the payload is empty: no current conditions, no
    forecast, no source tag. *)
Theorem missing_credential_is_503 (q : WeatherQuery) (w : World) :
  credential_present w = false ->
  lookup q w
  = (Returned
       {| status := 503;
          json := {| current := empty_current; forecast := [];
                     hourly := None; alerts := []; recommendations := [];
                     source := None;
                     error := Some "Weather service not configured" |} |},
     []).
Proof. intros K. now rewrite lookup_without_credential. Qed.

Lemma missing_credential_is_503_witness :
  credential_present world_unconfigured = false
  /\ fst (lookup query_pune world_unconfigured)
     = Returned
         {| status := 503;
            json := empty_payload (Some "Weather service not configured") |}.
Proof.
  split; [reflexivity|].
  now rewrite (missing_credential_is_503 query_pune world_unconfigured eq_refl).
Defined.




(** ** Every answer is a payload *)

Lemma provider_payload_reshape (u : string) (w : World) (la lo : number)
    (data : WeatherResult) :
  provider_payload u w la lo = Some data ->
  exists currentData forecastData,
    usable (currentConditions w la lo) = Some currentData
    /\ usable (forecastDaysOf w la lo) = Some forecastData
    /\ data = reshape u currentData forecastData.
Proof.
  unfold provider_payload.
  destruct (usable (currentConditions w la lo)) as [cd|]; [|discriminate].
  destruct (usable (forecastDaysOf w la lo)) as [fd|]; [|discriminate].
  intros [= <-]. now exists cd, fd.
Qed.






(** ** The synthetic fallback of the coordinate branch *)

Lemma call_failed_usable {A} (o : fetch_outcome A) :
  call_failed o = true -> usable o = None.
Proof. unfold call_failed. now destruct (usable o). Qed.

Lemma lookup_coordinates_failed (w : World) (q : WeatherQuery) (la lo : number) :
  credential_present w = true ->
  lat q = Finite la -> lon q = Finite lo ->
  call_failed (currentConditions w la lo) = true ->
  lookup q w
  = (Returned {| status := 200; json := fallback_route (getMonth w) |},
     [CurrentConditions_lookup la lo]).
Proof.
  intros K Hla Hlo F. rewrite (lookup_coordinates w q la lo K Hla Hlo).
  unfold provider_payload, provider_calls.
  now rewrite (call_failed_usable _ F).
Qed.

(** C2, with the tag the handler writes.  For a coordinate query whose two
    provider calls both fail, the answer is 200 with source tag
    "fallback-route" and exactly seven forecast days; with [b] the baseline
    of the month, day [i] has high [b + (i mod 3) - 1], low
    [b - 5 + (i mod 2)] and the condition at [i mod 4] in the cycle Sunny,
    Partly Cloudy, Cloudy, Rain. *)
Theorem fallback_when_providers_fail (q : WeatherQuery) (w : World)
    (la lo : number) :
  credential_present w = true ->
  lat q = Finite la -> lon q = Finite lo ->
  call_failed (currentConditions w la lo) = true ->
  call_failed (forecastDaysOf w la lo) = true ->
  exists (resp : Response) (calls : list call),
    lookup q w = (Returned resp, calls)
    /\ status resp = 200
    /\ source (json resp) = Some "fallback-route"
    /\ length (forecast (json resp)) = 7
    /\ let b := nth (getMonth w) baseline_table 28%Q in
       forall i : nat, i < 7 ->
       exists d : ForecastDay,
         forecast (json resp) !! i = Some d
         /\ (high d == b + of_nat (i mod 3) - 1)%Q
         /\ (low d == b - 5 + of_nat (i mod 2))%Q
         /\ day_condition d = nth (i mod 4) condition_cycle "Rain".
Proof.
  intros K Hla Hlo F1 _.
  rewrite (lookup_coordinates_failed w q la lo K Hla Hlo F1).
  do 2 eexists. split; [reflexivity|]. cbn [status json].
  do 3 (split; [reflexivity|]).
  intros i Hi. rewrite <- baseTemp_route_nth.
  destruct (fallback_route_day (getMonth w) i Hi)
    as (d & Hd & _ & Hh & Hl & Hc & _).
  exists d. rewrite Hh, Hl.
  repeat split; try assumption.
  - apply high_formula, baseTemp_route_integral.
  - apply low_formula, baseTemp_route_integral.
Qed.

Lemma fallback_when_providers_fail_witness :
  exists (resp : Response) (calls : list call),
    lookup query_origin_imperial world_down = (Returned resp, calls)
    /\ status resp = 200
    /\ source (json resp) = Some "fallback-route"
    /\ length (forecast (json resp)) = 7
    /\ forall i : nat, i < 7 ->
       exists d : ForecastDay,
         forecast (json resp) !! i = Some d
         /\ (high d == 33 + of_nat (i mod 3) - 1)%Q
         /\ (low d == 33 - 5 + of_nat (i mod 2))%Q
         /\ day_condition d = nth (i mod 4) condition_cycle "Rain".
Proof.
  exact (fallback_when_providers_fail query_origin_imperial world_down 0%Q 0%Q
           eq_refl eq_refl eq_refl eq_refl eq_refl).
Defined.

(** C2 as stated fails on the tag: with both provider calls failing the
    source tag is not "fallback". *)
Lemma fallback_tag_is_not_fallback :
  call_failed (currentConditions world_down 0%Q 0%Q) = true
  /\ call_failed (forecastDaysOf world_down 0%Q 0%Q) = true
  /\ (payload_of (lookup query_origin_imperial world_down) ≫= source)
     = Some "fallback-route"
  /\ ~ (exists (resp : Response) (calls : list call),
          lookup query_origin_imperial world_down = (Returned resp, calls)
          /\ source (json resp) = Some "fallback").
Proof.
  repeat split.
  intros (resp & calls & H & S).
  vm_compute in H. injection H as <- <-. discriminate S.
Qed.

(** ** Baseline and condition of the synthetic payloads *)

Lemma Math_round_baseTemp_route (month : nat) :
  Math_round (baseTemp_route month) = baseTemp_route month.
Proof.
  destruct (baseTemp_route_integral month) as [z ->].
  apply Math_round_inject_Z.
Qed.

(** C8. In both synthetic payloads the baseline of month [m] is entry [m] of
    the table [20,22,26,30,32,33,32,31,30,28,24,21], or 28 when [m] is out of
    range; it is the current temperature, and the condition is "Sunny" from
    30 up, "Partly Cloudy" from 25 up and "Cloudy" below.  Month 5 gives 33
    and "Sunny". *)
Theorem fallback_baseline (m : nat) :
  let b := nth m baseline_table 28%Q in
  let label :=
    if Qle_bool 30 b then "Sunny"
    else if Qle_bool 25 b then "Partly Cloudy" else "Cloudy" in
  (baseTemp_route m = b /\ baseTemp_catch m = b)
  /\ (temperature (current (fallback_route m)) = Some b
      /\ temperature (current (fallback_catch m)) = Some b)
  /\ (condition (current (fallback_route m)) = Some label
      /\ condition (current (fallback_catch m)) = Some label)
  /\ (baseTemp_route 5 = 33%Q
      /\ condition (current (fallback_route 5)) = Some "Sunny"
      /\ condition (current (fallback_catch 5)) = Some "Sunny").
Proof.
  intros b label. subst b label.
  rewrite <- baseTemp_route_nth.
  split; [split; reflexivity|].
  split.
  { split; exact (f_equal Some (Math_round_baseTemp_route m)). }
  split; [split; reflexivity|].
  repeat split.
Qed.

(** ** The two synthetic payloads compared *)

(** C10, as the handler has it.  For every month the payload of the outer
    [catch] is the payload of the coordinate branch with the icon properties
    dropped and one more recommendation appended; the two agree on
    temperature, humidity, wind speed, condition, on every forecast day's
    label, high, low and condition, on alerts and on the source tag. *)
Theorem fallback_catch_refines_route (month : nat) :
  let route := fallback_route month in
  let catch := fallback_catch month in
  catch
  = with_more_recommendations (without_icons route)
      ["Check local advisories for heat or rain"]
  /\ (temperature (current catch) = temperature (current route)
      /\ humidity (current catch) = humidity (current route)
      /\ windSpeed (current catch) = windSpeed (current route)
      /\ condition (current catch) = condition (current route))
  /\ (fun d => (day d, high d, low d, day_condition d)) <$> forecast catch
     = (fun d => (day d, high d, low d, day_condition d)) <$> forecast route
  /\ (alerts catch = alerts route /\ source catch = source route)
  /\ recommendations catch
     = recommendations route ++ ["Check local advisories for heat or rain"]
  /\ (icon (current route) = Some "fas fa-cloud-sun"
      /\ icon (current catch) = None).
Proof. repeat split. Qed.

(** C10 as stated fails: the two payloads differ in their recommendations,
    in [current] and in the forecast. *)
Lemma fallbacks_differ :
  recommendations (fallback_route 0) <> recommendations (fallback_catch 0)
  /\ current (fallback_route 0) <> current (fallback_catch 0)
  /\ forecast (fallback_route 0) <> forecast (fallback_catch 0)
  /\ source (fallback_route 0) = source (fallback_catch 0).
Proof. repeat split; discriminate. Qed.

(** ** Units *)

(** C3 at its failing inputs.  With imperial units requested and the
    providers down in June, the synthetic payload reports the Celsius
    baseline 33 where the conversion gives 91; and a provider forecast day
    without a maximum gets the already converted current temperature
    converted once more (31.5 C is 89 F, reported as 192). *)
Theorem fallback_ignores_units :
  (payload_of (lookup query_origin_imperial world_down)
     ≫= (fun r => temperature (current r))) = Some 33%Q
  /\ in_units "imperial" 33 = 91%Q
  /\ (high <$> (payload_of (lookup query_origin_imperial world_down)
                  ≫= (fun r => forecast r !! 1))) = Some 33%Q
  /\ (payload_of (lookup query_origin_imperial world_up)
        ≫= (fun r => temperature (current r))) = Some 89%Q
  /\ (high <$> (payload_of (lookup query_origin_imperial world_up)
                  ≫= (fun r => forecast r !! 1))) = Some 192%Q.
Proof. repeat split. Qed.

(** ** Shape of the answer to a coordinate query *)








(** ** Today's range *)

(** C9. When [getWeatherData] answers with a payload whose forecast is not
    empty, [tempMin] and [tempMax] of the current conditions are the first
    forecast day's low and high; they replace the estimate made from the
    current temperature [t] alone, which is [t - 5] for [tempMin] and [t]
    for [tempMax] and stays when the forecast is empty. *)
Theorem tempMin_tempMax_from_first_day (u : string) (la lo : number)
    (w : World) (tr tr' : list call) (data : WeatherResult) :
  getWeatherData u la lo w tr = (Returned (Some data), tr') ->
  match forecast data with
  | first :: _ =>
      tempMin (current data) = Some (low first)
      /\ tempMax (current data) = Some (high first)
  | [] =>
      exists t : number,
        temperature (current data) = Some t
        /\ tempMin (current data) = Some (t - 5)%Q
        /\ tempMax (current data) = Some t
  end.
Proof.
  rewrite getWeatherData_run. intros [= E _].
  destruct (provider_payload_reshape _ _ _ _ _ E) as (cd & fd & _ & _ & ->).
  pose proof (reshape_tempMin_tempMax u cd fd) as H.
  destruct (forecast (reshape u cd fd)); [|exact H].
  eexists. split; [apply reshape_temperature | exact H].
Qed.

Lemma tempMin_tempMax_from_first_day_witness :
  getWeatherData "metric" 0%Q 0%Q world_up []
  = (Returned (Some (reshape "metric" sample_current sample_forecast)),
     [CurrentConditions_lookup 0 0; ForecastDays_lookup 0 0 7])
  /\ match forecast (reshape "metric" sample_current sample_forecast) with
     | first :: _ =>
         tempMin (current (reshape "metric" sample_current sample_forecast))
         = Some (low first)
         /\ tempMax (current (reshape "metric" sample_current sample_forecast))
            = Some (high first)
     | [] =>
         exists t : number,
           temperature (current (reshape "metric" sample_current sample_forecast))
           = Some t
           /\ tempMin (current (reshape "metric" sample_current sample_forecast))
              = Some (t - 5)%Q
           /\ tempMax (current (reshape "metric" sample_current sample_forecast))
              = Some t
     end.
Proof.
  split; [reflexivity|].
  exact (tempMin_tempMax_from_first_day "metric" 0%Q 0%Q world_up [] _ _ eq_refl).
Defined.

(** ** Place names *)

Lemma provider_calls_at (w : World) (la lo : number) :
  Forall (weather_call_at la lo) (provider_calls w la lo).
Proof.
  unfold provider_calls.
  destruct (usable (currentConditions w la lo)); repeat constructor.
Qed.

Lemma geocoded_first (w : World) (c : string) (data : Google.GeocodeData)
    (first : Google.GeocodeResult) (others : list Google.GeocodeResult)
    (la lo : number) :
  usable (geocode w c) = Some data ->
  Google.results data = Some (first :: others) ->
  Google.geometry_location first = Some (la, lo) ->
  geocoded w c = Some (la, lo).
Proof. unfold geocoded. now intros -> -> ->. Qed.

Lemma geocoded_nothing (w : World) (c : string) :
  call_failed (geocode w c) = true
  \/ (exists data : Google.GeocodeData,
        usable (geocode w c) = Some data
        /\ (Google.results data = None \/ Google.results data = Some [])) ->
  geocoded w c = None.
Proof.
  unfold geocoded. intros [F|(data & -> & [-> | ->])]; try reflexivity.
  now rewrite (call_failed_usable _ F).
Qed.

(** C5. For a query with a place name and no coordinates, with the
    credential present: the geocoder is asked about the trimmed name first.
    If it answers with at least one result, the weather lookup that follows
    is made at the first result's coordinates, and no weather call is made
    anywhere else.  If the geocoder fails or answers with no result, the
    handler asks [ai.weather] about the name and sends its payload (with
    [alerts] reset); if that rejects, it sends the synthetic payload of the
    outer [catch]. *)
Theorem place_lookup_cascade (q : WeatherQuery) (w : World) :
  credential_present w = true ->
  has_coordinates q = false ->
  has_place q = true ->
  (forall (data : Google.GeocodeData) (first : Google.GeocodeResult)
          (others : list Google.GeocodeResult) (la lo : number),
      usable (geocode w (cityQ_of q)) = Some data ->
      Google.results data = Some (first :: others) ->
      Google.geometry_location first = Some (la, lo) ->
      exists rest : list call,
        snd (lookup q w)
        = Geocode (cityQ_of q) :: CurrentConditions_lookup la lo :: rest
        /\ Forall (weather_call_at la lo) (snd (lookup q w)))
  /\ (call_failed (geocode w (cityQ_of q)) = true
      \/ (exists data : Google.GeocodeData,
            usable (geocode w (cityQ_of q)) = Some data
            /\ (Google.results data = None \/ Google.results data = Some [])) ->
      snd (lookup q w) = [Geocode (cityQ_of q); Ai_weather (cityQ_of q)]
      /\ fst (lookup q w)
         = Returned
             {| status := 200;
                json := match ai_weather w (cityQ_of q) with
                        | Some result => spread_with_alerts result []
                        | None => fallback_catch (getMonth w)
                        end |}).
Proof.
  intros K C P. rewrite (lookup_place w q K C P). split.
  - intros data first others la lo Hu Hr Hg.
    rewrite (geocoded_first _ _ _ _ _ _ _ Hu Hr Hg).
    pose proof (provider_calls_at w la lo) as Hat.
    destruct (provider_payload _ w la lo); cbn [snd].
    + eexists. split; [reflexivity|]. constructor; [exact I | exact Hat].
    + eexists. split; [reflexivity|].
      constructor; [exact I|]. apply Forall_app. split; [exact Hat|].
      repeat constructor.
  - intros H. rewrite (geocoded_nothing _ _ H). now split.
Qed.

Lemma place_lookup_cascade_witness :
  (exists rest : list call,
     snd (lookup query_pune world_up)
     = Geocode "Pune" :: CurrentConditions_lookup 18.52 73.86 :: rest
     /\ Forall (weather_call_at 18.52 73.86) (snd (lookup query_pune world_up)))
  /\ (snd (lookup query_pune world_ai) = [Geocode "Pune"; Ai_weather "Pune"]
      /\ fst (lookup query_pune world_ai)
         = Returned {| status := 200;
                       json := spread_with_alerts (fallback_route 3) [] |})
  /\ (snd (lookup query_pune world_down) = [Geocode "Pune"; Ai_weather "Pune"]
      /\ fst (lookup query_pune world_down)
         = Returned {| status := 200; json := fallback_catch 5 |}).
Proof.
  split; [|split].
  - exact (proj1 (place_lookup_cascade query_pune world_up eq_refl eq_refl eq_refl)
             sample_geocode _ _ _ _ eq_refl eq_refl eq_refl).
  - exact (proj2 (place_lookup_cascade query_pune world_ai eq_refl eq_refl eq_refl)
             (or_intror (ex_intro _ {| Google.results := Some [] |}
                           (conj eq_refl (or_intror eq_refl))))).
  - exact (proj2 (place_lookup_cascade query_pune world_down eq_refl eq_refl eq_refl)
             (or_introl eq_refl)).
Defined.

(** * Further properties of the handler *)

(** ** Outbound calls *)

Lemma provider_calls_failed (w : World) (la lo : number) :
  provider_calls w la lo
  = CurrentConditions_lookup la lo
      :: (if call_failed (currentConditions w la lo) then []
          else [ForecastDays_lookup la lo 7]).
Proof.
  unfold provider_calls, call_failed.
  now destruct (usable (currentConditions w la lo)).
Qed.

Lemma provider_payload_failed (u : string) (w : World) (la lo : number) :
  call_failed (currentConditions w la lo) = true
  \/ call_failed (forecastDaysOf w la lo) = true ->
  provider_payload u w la lo = None.
Proof.
  unfold provider_payload, call_failed.
  destruct (usable (currentConditions w la lo)),
    (usable (forecastDaysOf w la lo)); intros [?|?]; congruence.
Qed.

Lemma provider_payload_succeeded (u : string) (w : World) (la lo : number) :
  call_failed (currentConditions w la lo) = false ->
  call_failed (forecastDaysOf w la lo) = false ->
  exists cd fd,
    usable (currentConditions w la lo) = Some cd
    /\ usable (forecastDaysOf w la lo) = Some fd
    /\ provider_payload u w la lo = Some (reshape u cd fd).
Proof.
  unfold provider_payload, call_failed.
  destruct (usable (currentConditions w la lo)) as [cd|]; [|discriminate].
  destruct (usable (forecastDaysOf w la lo)) as [fd|]; [|discriminate].
  intros _ _. now exists cd, fd.
Qed.

(** X1. A query with finite coordinates calls the current-conditions
    endpoint at exactly these coordinates, then the forecast endpoint (seven
    days, same coordinates) only if the current conditions were read; it
    never calls the geocoder or [ai.weather], whatever place name comes with
    it. *)
Theorem coordinate_query_calls (q : WeatherQuery) (w : World) (la lo : number) :
  credential_present w = true ->
  lat q = Finite la -> lon q = Finite lo ->
  snd (lookup q w)
  = CurrentConditions_lookup la lo
      :: (if call_failed (currentConditions w la lo) then []
          else [ForecastDays_lookup la lo 7]).
Proof.
  intros K Hla Hlo. rewrite (lookup_coordinates w q la lo K Hla Hlo).
  apply provider_calls_failed.
Qed.

Lemma coordinate_query_calls_witness :
  snd (lookup query_both world_no_forecast)
  = [CurrentConditions_lookup 18.52 73.86; ForecastDays_lookup 18.52 73.86 7]
  /\ snd (lookup query_both world_down) = [CurrentConditions_lookup 18.52 73.86].
Proof.
  split.
  - exact (coordinate_query_calls query_both world_no_forecast _ _
             eq_refl eq_refl eq_refl).
  - exact (coordinate_query_calls query_both world_down _ _
             eq_refl eq_refl eq_refl).
Defined.

(** X2. For a query with finite coordinates the source tag tells the truth:
    it is "google-weather" exactly when both provider calls succeeded, and
    then the payload is built from their two bodies; as soon as one of them
    fails, nothing of the provider data is sent: the payload is the synthetic
    one of the current month, tagged "fallback-route". *)
Theorem coordinate_query_source (q : WeatherQuery) (w : World) (la lo : number) :
  credential_present w = true ->
  lat q = Finite la -> lon q = Finite lo ->
  exists resp : Response,
    fst (lookup q w) = Returned resp
    /\ status resp = 200
    /\ (if call_failed (currentConditions w la lo)
           || call_failed (forecastDaysOf w la lo)
        then json resp = fallback_route (getMonth w)
             /\ source (json resp) = Some "fallback-route"
        else
          (exists cd fd,
             usable (currentConditions w la lo) = Some cd
             /\ usable (forecastDaysOf w la lo) = Some fd
             /\ json resp = reshape (or_str (units q) "metric") cd fd)
          /\ source (json resp) = Some "google-weather").
Proof.
  intros K Hla Hlo. rewrite (lookup_coordinates w q la lo K Hla Hlo).
  eexists. split; [reflexivity|]. split; [reflexivity|]. cbn [json].
  destruct (call_failed (currentConditions w la lo)) eqn:F1; cbn [orb].
  { rewrite provider_payload_failed by now left. now split. }
  destruct (call_failed (forecastDaysOf w la lo)) eqn:F2.
  { rewrite provider_payload_failed by now right. now split. }
  destruct (provider_payload_succeeded (or_str (units q) "metric") w la lo F1 F2)
    as (cd & fd & Hc & Hf & ->).
  cbn [default]. split; [now exists cd, fd | reflexivity].
Qed.

Lemma coordinate_query_source_witness :
  (payload_of (lookup query_both world_no_forecast))
  = Some (fallback_route 11)
  /\ (payload_of (lookup query_both world_up))
     = Some (reshape "metric" sample_current sample_forecast).
Proof.
  split.
  - destruct (coordinate_query_source query_both world_no_forecast _ _
                eq_refl eq_refl eq_refl) as (resp & Hr & _ & Hj).
    unfold payload_of. rewrite Hr. cbn in Hj. now rewrite (proj1 Hj).
  - destruct (coordinate_query_source query_both world_up _ _
                eq_refl eq_refl eq_refl) as (resp & Hr & _ & Hj).
    unfold payload_of. rewrite Hr. cbn -[reshape] in Hj.
    destruct Hj as [(cd & fd & [= <-] & [= <-] & ->) _]. reflexivity.
Defined.

(** X3. A place-name query whose name was geocoded but whose weather lookup
    failed does not get the synthetic payload of the coordinate branch: after
    the weather calls the handler asks [ai.weather] about the name and sends
    what it answers, or the payload of the outer [catch] if it rejects.  The
    same happens, without any weather call, when the first geocoding result
    carries no [geometry.location]. *)
Theorem geocoded_then_unavailable (q : WeatherQuery) (w : World)
    (data : Google.GeocodeData) (first : Google.GeocodeResult)
    (others : list Google.GeocodeResult) :
  credential_present w = true ->
  has_coordinates q = false ->
  has_place q = true ->
  usable (geocode w (cityQ_of q)) = Some data ->
  Google.results data = Some (first :: others) ->
  match Google.geometry_location first with
  | Some (la, lo) =>
      call_failed (currentConditions w la lo) = true
      \/ call_failed (forecastDaysOf w la lo) = true
  | None => True
  end ->
  fst (lookup q w)
  = Returned
      {| status := 200;
         json := match ai_weather w (cityQ_of q) with
                 | Some result => spread_with_alerts result []
                 | None => fallback_catch (getMonth w)
                 end |}
  /\ snd (lookup q w)
     = Geocode (cityQ_of q)
         :: match Google.geometry_location first with
            | Some (la, lo) =>
                CurrentConditions_lookup la lo
                  :: (if call_failed (currentConditions w la lo) then []
                      else [ForecastDays_lookup la lo 7])
            | None => []
            end
         ++ [Ai_weather (cityQ_of q)].
Proof.
  intros K C P Hu Hr Hfail. rewrite (lookup_place w q K C P).
  unfold geocoded. rewrite Hu, Hr.
  destruct (Google.geometry_location first) as [[la lo]|]; [|now split].
  rewrite (provider_payload_failed _ _ _ _ Hfail), provider_calls_failed.
  now split.
Qed.

Lemma geocoded_then_unavailable_witness :
  (fst (lookup query_pune world_no_forecast)
   = Returned {| status := 200; json := spread_with_alerts (fallback_route 3) [] |}
   /\ snd (lookup query_pune world_no_forecast)
      = [Geocode "Pune"; CurrentConditions_lookup 18.52 73.86;
         ForecastDays_lookup 18.52 73.86 7; Ai_weather "Pune"])
  /\ (fst (lookup query_pune world_no_geometry)
      = Returned {| status := 200; json := fallback_catch 11 |}
      /\ snd (lookup query_pune world_no_geometry)
         = [Geocode "Pune"; Ai_weather "Pune"]).
Proof.
  split.
  - exact (geocoded_then_unavailable query_pune world_no_forecast
             sample_geocode _ _ eq_refl eq_refl eq_refl eq_refl eq_refl
             (or_intror eq_refl)).
  - exact (geocoded_then_unavailable query_pune world_no_geometry
             _ _ _ eq_refl eq_refl eq_refl eq_refl eq_refl I).
Defined.

(** X4. No retries: whatever the query and the providers, a request makes at
    most four outbound calls, each endpoint at most once and in the order
    geocoder, current conditions, forecast, [ai.weather]; both weather calls
    go to the same coordinates. *)
Theorem at_most_one_call_per_endpoint (q : WeatherQuery) (w : World) :
  exists la lo : number,
    snd (lookup q w)
      `sublist_of` [Geocode (cityQ_of q); CurrentConditions_lookup la lo;
                    ForecastDays_lookup la lo 7; Ai_weather (cityQ_of q)].
Proof.
  destruct (credential_present w) eqn:K.
  2:{ rewrite (lookup_without_credential w q K). exists 0%Q, 0%Q.
      apply sublist_nil_l. }
  destruct (has_coordinates q) eqn:C.
  { destruct (has_coordinates_finite q C) as (la & lo & Hla & Hlo).
    rewrite (lookup_coordinates w q la lo K Hla Hlo). exists la, lo.
    rewrite provider_calls_failed. cbn [snd].
    destruct (call_failed _); repeat constructor. }
  destruct (has_place q) eqn:P.
  2:{ rewrite (lookup_invalid_input w q K C P). exists 0%Q, 0%Q.
      apply sublist_nil_l. }
  rewrite (lookup_place w q K C P).
  destruct (geocoded w (cityQ_of q)) as [[la lo]|].
  - exists la, lo. rewrite provider_calls_failed.
    destruct (provider_payload _ w la lo), (call_failed _); cbn;
      repeat constructor.
  - exists 0%Q, 0%Q. cbn. repeat constructor.
Qed.

(** ** Query parameters *)

Lemma reshape_units (u1 u2 : string) (cd : Google.CurrentData)
    (fd : Google.ForecastData) :
  String.eqb u1 "metric" = String.eqb u2 "metric" ->
  reshape u1 cd fd = reshape u2 cd fd.
Proof. intros E. unfold reshape, in_units. now rewrite E. Qed.

Lemma provider_payload_units (u1 u2 : string) (w : World) (la lo : number) :
  String.eqb u1 "metric" = String.eqb u2 "metric" ->
  provider_payload u1 w la lo = provider_payload u2 w la lo.
Proof.
  intros E. unfold provider_payload.
  destruct (usable (currentConditions w la lo)) as [cd|]; [|reflexivity].
  destruct (usable (forecastDaysOf w la lo)) as [fd|]; [|reflexivity].
  now rewrite (reshape_units u1 u2 cd fd E).
Qed.

(** X5. The [units] parameter matters only through the test
    [units === 'metric']: two queries that differ in nothing but [units] get
    the same response and make the same calls whenever both or neither ask
    for "metric".  So an absent or empty [units] is "metric", and every other
    string ("Metric", "kelvin", ...) is treated like "imperial". *)
Theorem units_matter_only_as_metric (q : WeatherQuery) (u1 u2 : option string)
    (w : World) :
  String.eqb (or_str u1 "metric") "metric"
  = String.eqb (or_str u2 "metric") "metric" ->
  lookup (with_units q u1) w = lookup (with_units q u2) w.
Proof.
  intros E.
  destruct (credential_present w) eqn:K.
  2:{ now rewrite !(lookup_without_credential w _ K). }
  destruct (has_coordinates q) eqn:C.
  { destruct (has_coordinates_finite q C) as (la & lo & Hla & Hlo).
    rewrite (lookup_coordinates w (with_units q u1) la lo K Hla Hlo).
    rewrite (lookup_coordinates w (with_units q u2) la lo K Hla Hlo).
    cbn [units with_units].
    now rewrite (provider_payload_units _ _ w la lo E). }
  destruct (has_place q) eqn:P.
  2:{ now rewrite (lookup_invalid_input w (with_units q u1) K C P),
        (lookup_invalid_input w (with_units q u2) K C P). }
  rewrite (lookup_place w (with_units q u1) K C P).
  rewrite (lookup_place w (with_units q u2) K C P).
  change (cityQ_of (with_units q u1)) with (cityQ_of q).
  change (cityQ_of (with_units q u2)) with (cityQ_of q).
  cbn [units with_units].
  destruct (geocoded w (cityQ_of q)) as [[la lo]|]; [|reflexivity].
  now rewrite (provider_payload_units _ _ w la lo E).
Qed.

Lemma units_matter_only_as_metric_witness :
  lookup (with_units query_both None) world_up
  = lookup (with_units query_both (Some "metric")) world_up
  /\ lookup (with_units query_both (Some "Metric")) world_up
     = lookup (with_units query_both (Some "imperial")) world_up.
Proof.
  split.
  - exact (units_matter_only_as_metric query_both None (Some "metric")
             world_up eq_refl).
  - exact (units_matter_only_as_metric query_both (Some "Metric")
             (Some "imperial") world_up eq_refl).
Defined.

Lemma trimStart_all_space (s : string) :
  all_space s = true -> trimStart s = EmptyString.
Proof.
  induction s as [|c s IH]; [reflexivity|]. cbn.
  destruct (is_space c); [|discriminate]. exact IH.
Qed.

Lemma trim_all_space (s : string) : all_space s = true -> trim s = EmptyString.
Proof. intros H. unfold trim. now rewrite trimStart_all_space. Qed.

(** X6. A non-empty [city] parameter always wins over [location], also when
    it is white space only: such a query (without coordinates) is answered
    400 without any call, although [location] names a place. *)
Theorem blank_city_hides_location (q : WeatherQuery) (w : World)
    (c : ascii) (s : string) (l : option string) :
  city q = Some (String c s) ->
  lookup (with_location q l) w = lookup q w
  /\ (credential_present w = true ->
      has_coordinates q = false ->
      all_space (String c s) = true ->
      lookup (with_location q l) w
      = (Returned {| status := 400; json := empty_payload None |}, [])).
Proof.
  intros Hc.
  assert (E : lookup (with_location q l) w = lookup q w).
  { unfold lookup, new_weather_route. cbn [with_location lat lon city location units].
    rewrite Hc. reflexivity. }
  split; [exact E|].
  intros K C Hs. rewrite E.
  apply (lookup_invalid_input w q K C).
  unfold has_place, cityQ_of. rewrite Hc. cbn [or_opt truthy or_str].
  now rewrite (trim_all_space _ Hs).
Qed.

Lemma blank_city_hides_location_witness :
  lookup (with_location query_blank_city (Some "Mumbai")) world_up
  = lookup query_blank_city world_up
  /\ lookup (with_location query_blank_city (Some "Mumbai")) world_up
     = (Returned {| status := 400; json := empty_payload None |}, []).
Proof.
  pose proof (blank_city_hides_location query_blank_city world_up
                " "%char " " (Some "Mumbai") eq_refl) as [H1 H2].
  split; [exact H1 | exact (H2 eq_refl eq_refl eq_refl)].
Defined.

(** ** Rounding and order *)



Lemma Math_round_mono (x y : number) :
  (x <= y)%Q -> (Math_round x <= Math_round y)%Q.
Proof.
  intros H. unfold Math_round. rewrite <- Zle_Qle.
  apply Qfloor_resp_le. lra.
Qed.


Lemma in_units_mono (u : string) (x y : number) :
  (x <= y)%Q -> (in_units u x <= in_units u y)%Q.
Proof.
  intros H. unfold in_units.
  destruct (String.eqb u "metric"); apply Math_round_mono; [exact H|].
  unfold Qdiv. change (/ 5)%Q with (1 # 5)%Q. lra.
Qed.

Lemma Math_round_idem (x : number) : Math_round (Math_round x) = Math_round x.
Proof. unfold Math_round at 2 3. apply Math_round_inject_Z. Qed.

Lemma Math_round_of_integer (x : number) :
  is_integer x -> (Math_round x == x)%Q.
Proof.
  intros H. rewrite (Math_round_comp _ _ H), Math_round_inject_Z.
  symmetry. exact H.
Qed.

(** ** Advice *)


(** ** Icons *)





(** ** The forecast built from provider days *)

Lemma reshape_forecast_day (u : string) (cd : Google.CurrentData)
    (fd : Google.ForecastData) (i : nat) :
  forecast (reshape u cd fd) !! i
  = reported_day u (in_units u (tempCelsius_of cd)) i
      <$> take 7 (days_of fd) !! i.
Proof.
  unfold reshape. cbn [forecast]. now rewrite list_lookup_imap.
Qed.

(** X12. Only the provider's first seven days are used, in the provider's
    order and none skipped: the forecast has [min 7 n] days for [n] provider
    days, and day [i] is built from provider day [i], converting its maximum
    and minimum (or, where one is missing, the reported current temperature
    and that less five). *)
Theorem forecast_first_seven_days (u : string) (cd : Google.CurrentData)
    (fd : Google.ForecastData) :
  length (forecast (reshape u cd fd)) = 7 `min` length (days_of fd)
  /\ forall i : nat,
       forecast (reshape u cd fd) !! i
       = if (i <? 7)%nat
         then reported_day u (in_units u (tempCelsius_of cd)) i
                <$> days_of fd !! i
         else None.
Proof.
  split.
  - unfold reshape. cbn [forecast]. fold (days_of fd).
    now rewrite length_imap, length_take.
  - intros i. rewrite reshape_forecast_day.
    destruct (Nat.ltb_spec i 7) as [Hi|Hi].
    + now rewrite lookup_take_lt.
    + now rewrite lookup_take_ge.
Qed.

(** X11. Conversion and rounding keep the order: a provider day whose
    minimum does not exceed its maximum is reported with [low <= high], in
    either unit. *)
Theorem reported_range_ordered (u : string) (cd : Google.CurrentData)
    (fd : Google.ForecastData) (i : nat) (day_ : Google.ForecastDayData)
    (d : ForecastDay) (lo_ hi_ : number) :
  days_of fd !! i = Some day_ ->
  forecast (reshape u cd fd) !! i = Some d ->
  min_degrees day_ = Some lo_ ->
  max_degrees day_ = Some hi_ ->
  (lo_ <= hi_)%Q ->
  (low d <= high d)%Q.
Proof.
  intros Hday Hd Hmin Hmax Hle.
  rewrite (proj2 (forecast_first_seven_days u cd fd)) in Hd.
  destruct (i <? 7)%nat; [|discriminate].
  rewrite Hday in Hd. injection Hd as <-.
  cbn [reported_day low high]. rewrite Hmin, Hmax. cbn [default].
  now apply in_units_mono.
Qed.

Lemma reported_range_ordered_witness :
  (low (reported_day "imperial" (in_units "imperial" 31.5) 0
          {| Google.maxTemperature := Some {| Google.degrees := Some 33%Q |};
             Google.minTemperature := Some {| Google.degrees := Some 24.4%Q |};
             Google.daytimeForecast := None |})
   <= high (reported_day "imperial" (in_units "imperial" 31.5) 0
              {| Google.maxTemperature := Some {| Google.degrees := Some 33%Q |};
                 Google.minTemperature := Some {| Google.degrees := Some 24.4%Q |};
                 Google.daytimeForecast := None |}))%Q.
Proof.
  refine (reported_range_ordered "imperial" sample_current sample_forecast 0
            _ _ 24.4%Q 33%Q eq_refl eq_refl eq_refl eq_refl _).
  unfold Qle; cbn; lia.
Defined.


(** X14. A provider day without a maximum is given the current temperature
    as already reported, run through the conversion again; so is a day
    without a minimum, with that temperature less five.  In "metric" this is
    the current temperature itself (and itself less five). *)
Theorem day_without_extremes (u : string) (cd : Google.CurrentData)
    (fd : Google.ForecastData) (i : nat) (day_ : Google.ForecastDayData)
    (d : ForecastDay) :
  days_of fd !! i = Some day_ ->
  forecast (reshape u cd fd) !! i = Some d ->
  max_degrees day_ = None ->
  min_degrees day_ = None ->
  (high d = in_units u (in_units u (tempCelsius_of cd))
   /\ low d = in_units u (in_units u (tempCelsius_of cd) - 5)%Q)
  /\ (String.eqb u "metric" = true ->
      temperature (current (reshape u cd fd)) = Some (high d)
      /\ (low d == high d - 5)%Q).
Proof.
  intros Hday Hd Hmax Hmin.
  rewrite (proj2 (forecast_first_seven_days u cd fd)) in Hd.
  destruct (i <? 7)%nat; [|discriminate].
  rewrite Hday in Hd. injection Hd as <-.
  cbn [reported_day low high]. rewrite Hmin, Hmax. cbn [default].
  split; [now split|].
  intros E. rewrite reshape_temperature. unfold in_units. rewrite E.
  rewrite Math_round_idem. split; [reflexivity|].
  apply Math_round_of_integer, is_integer_minus_5, Math_round_is_integer.
Qed.

Lemma day_without_extremes_witness :
  (high (reported_day "imperial" (in_units "imperial" 31.5) 1
           {| Google.maxTemperature := None; Google.minTemperature := None;
              Google.daytimeForecast := None |})
   = in_units "imperial" 89
   /\ low (reported_day "imperial" (in_units "imperial" 31.5) 1
             {| Google.maxTemperature := None; Google.minTemperature := None;
                Google.daytimeForecast := None |})
      = in_units "imperial" 84).
Proof.
  exact (proj1 (day_without_extremes "imperial" sample_current
                  {| Google.forecastDays :=
                       Some [ {| Google.maxTemperature := None;
                                 Google.minTemperature := None;
                                 Google.daytimeForecast := None |};
                              {| Google.maxTemperature := None;
                                 Google.minTemperature := None;
                                 Google.daytimeForecast := None |} ] |}
                  1 _ _ eq_refl eq_refl eq_refl eq_refl)).
Defined.

(** ** Degenerate provider answers *)

(** X13. A success reply with the body [{}] is not a failure: when both
    endpoints answer that way, a coordinate query is answered from the
    defaults and tagged "google-weather": 22 degrees (72 when converted),
    "Clear", humidity 60, wind 10 from "N", an empty forecast and the range
    [t - 5, t]; the converted 72 also brings the hydration advice. *)
Theorem answer_from_empty_bodies (q : WeatherQuery) (w : World)
    (la lo : number) :
  credential_present w = true ->
  lat q = Finite la -> lon q = Finite lo ->
  usable (currentConditions w la lo) = Some no_current_data ->
  usable (forecastDaysOf w la lo) = Some no_forecast_data ->
  let metric := String.eqb (or_str (units q) "metric") "metric" in
  let t := if metric then 22%Q else 72%Q in
  fst (lookup q w)
  = Returned
      {| status := 200;
         json :=
           {| current :=
                {| temperature := Some t; tempMin := Some (t - 5)%Q;
                   tempMax := Some t; condition := Some "Clear";
                   humidity := Some 60%Q; windSpeed := Some 10%Q;
                   windDeg := Some 0%Q; windDir := Some "N";
                   icon := Some "fas fa-sun" |};
              forecast := [];
              hourly := Some [];
              alerts := [];
              recommendations :=
                if metric then ["Use sunscreen during midday"]
                else ["Stay hydrated"; "Use sunscreen during midday"];
              source := Some "google-weather";
              error := None |} |}.
Proof.
  intros K Hla Hlo Hc Hf metric t. subst metric t.
  rewrite (lookup_coordinates w q la lo K Hla Hlo).
  unfold provider_payload. rewrite Hc, Hf. cbn [fst default json].
  unfold reshape, in_units.
  destruct (String.eqb (or_str (units q) "metric") "metric"); reflexivity.
Qed.

Lemma answer_from_empty_bodies_witness :
  (payload_of (lookup query_origin_imperial world_empty_bodies)
     ≫= (fun r => temperature (current r))) = Some 72%Q
  /\ (recommendations
        <$> payload_of (lookup query_origin_imperial world_empty_bodies))
     = Some ["Stay hydrated"; "Use sunscreen during midday"].
Proof.
  pose proof (answer_from_empty_bodies query_origin_imperial world_empty_bodies
                0%Q 0%Q eq_refl eq_refl eq_refl eq_refl eq_refl) as H.
  cbn zeta in H. unfold payload_of. rewrite H. split; reflexivity.
Defined.

(** ** Range of the synthetic payloads *)

Ltac compare_numbers := apply Qle_bool_imp_le; vm_compute; reflexivity.

Ltac bounded_days :=
  repeat (apply List.Forall_cons; [repeat split; compare_numbers|]);
  apply List.Forall_nil.

(** X10. In both synthetic payloads, for every month, the current
    temperature lies between 20 and 33, and every forecast day has its low
    at least three degrees under its high, with all values between 15 and
    34. *)
Theorem synthetic_forecast_bounds (month : nat) :
  (exists t : number,
     temperature (current (fallback_route month)) = Some t
     /\ temperature (current (fallback_catch month)) = Some t
     /\ (20 <= t)%Q /\ (t <= 33)%Q)
  /\ Forall (fun d => (15 <= low d)%Q /\ (low d + 3 <= high d)%Q
                      /\ (high d <= 34)%Q)
       (forecast (fallback_route month))
  /\ Forall (fun d => (15 <= low d)%Q /\ (low d + 3 <= high d)%Q
                      /\ (high d <= 34)%Q)
       (forecast (fallback_catch month)).
Proof.
  do 12 (destruct month as [|month];
         [split; [eexists; split; [reflexivity|]; split; [reflexivity|];
                  split; compare_numbers
                 |split; bounded_days]|]).
  assert (E : baseTemp_route (12 + month) = 28%Q)
    by (destruct month; reflexivity).
  split.
  - exists 28%Q.
    split; [exact (f_equal (fun b => Some (Math_round b)) E)|].
    split; [exact (f_equal (fun b => Some (Math_round b)) E)|].
    split; compare_numbers.
  - split; unfold fallback_route, fallback_catch;
      change (baseTemp_catch (S (S (S (S (S (S (S (S (S (S (S (S month)))))))))))))
        with (baseTemp_route (12 + month));
      change (baseTemp_route (S (S (S (S (S (S (S (S (S (S (S (S month)))))))))))))
        with (baseTemp_route (12 + month));
      rewrite E; cbn [forecast fmap list_fmap seq]; bounded_days.
Qed.

(** * Properties of the maintenance scripts *)

(** ** Searching *)

Section Searching.

Implicit Types sub s t : Py.str.

Lemma startswith_app sub t : Py.startswith sub (sub ++ t) = true.
Proof.
  induction sub as [|a sub IH]; [reflexivity|].
  cbn. now rewrite Ascii.eqb_refl.
Qed.

Lemma startswith_spec sub s :
  Py.startswith sub s = true <-> exists t, s = sub ++ t.
Proof.
  split.
  - revert s. induction sub as [|a sub IH]; intros s H; [now exists s|].
    destruct s as [|b s]; [discriminate|]. cbn in H.
    apply andb_prop in H as [Hab H]. apply Ascii.eqb_eq in Hab as ->.
    destruct (IH s H) as [t ->]. now exists t.
  - intros [t ->]. apply startswith_app.
Qed.

Lemma startswith_length sub s :
  Py.startswith sub s = true -> length sub <= length s.
Proof.
  intros H. apply startswith_spec in H as [t ->].
  rewrite length_app. lia.
Qed.

(** Whether [sub] stands at the head depends on the first [length sub]
    characters only. *)
Lemma startswith_window sub s t :
  length sub <= length s ->
  Py.startswith sub (s ++ t) = Py.startswith sub s.
Proof.
  revert s. induction sub as [|a sub IH]; intros s H; [reflexivity|].
  destruct s as [|b s]; [cbn in H; lia|].
  cbn. f_equal. apply IH. cbn in H. lia.
Qed.

Lemma startswith_nil_false (a : ascii) sub :
  Py.startswith (a :: sub) [] = false.
Proof. reflexivity. Qed.

Lemma find_from_Some sub s pos i :
  Py.find_from sub s pos = Some i ->
  exists j : nat,
    i = pos + j /\ j <= length s
    /\ Py.startswith sub (drop j s) = true
    /\ forall k : nat, k < j -> Py.startswith sub (drop k s) = false.
Proof.
  revert pos. induction s as [|c s IH]; intros pos; cbn [Py.find_from].
  - destruct (Py.startswith sub []) eqn:E; [|discriminate].
    intros [= <-]. exists 0.
    split; [lia|]. split; [cbn; lia|]. split; [exact E | lia].
  - destruct (Py.startswith sub (c :: s)) eqn:E.
    + intros [= <-]. exists 0.
      split; [lia|]. split; [cbn; lia|]. split; [exact E | lia].
    + intros H. destruct (IH _ H) as (j & -> & Hj & Hs & Hk).
      exists (S j).
      split; [lia|]. split; [cbn; lia|]. split; [exact Hs|].
      intros [|k] Hlt; [exact E|]. apply Hk. lia.
Qed.

Lemma find_from_None sub s pos :
  Py.find_from sub s pos = None ->
  forall k : nat, k <= length s -> Py.startswith sub (drop k s) = false.
Proof.
  revert pos. induction s as [|c s IH]; intros pos; cbn [Py.find_from].
  - destruct (Py.startswith sub []) eqn:E; [discriminate|].
    intros _ k Hk. now rewrite drop_nil.
  - destruct (Py.startswith sub (c :: s)) eqn:E; [discriminate|].
    intros H [|k] Hk; [exact E|]. apply (IH _ H). cbn in Hk. lia.
Qed.

Lemma find_from_first sub s pos j :
  j <= length s ->
  Py.startswith sub (drop j s) = true ->
  (forall k : nat, k < j -> Py.startswith sub (drop k s) = false) ->
  Py.find_from sub s pos = Some (pos + j).
Proof.
  revert s pos. induction j as [|j IH]; intros s pos Hj Hs Hk.
  - rewrite drop_0 in Hs. destruct s; cbn [Py.find_from]; rewrite Hs;
      f_equal; lia.
  - destruct s as [|c s]; [cbn in Hj; lia|].
    cbn [Py.find_from].
    assert (H0 : Py.startswith sub (c :: s) = false) by (apply (Hk 0); lia).
    rewrite H0.
    rewrite (IH s (S pos)); [f_equal; lia | cbn in Hj; lia | exact Hs |].
    intros k Hlt. apply (Hk (S k)). lia.
Qed.

(** [find] answers an index exactly when it is the first occurrence from
    [start] on, and [-1] exactly when there is none. *)
Lemma find_Some sub s start i :
  Py.find sub s start = Some i <-> first_at sub s start i.
Proof.
  unfold Py.find, first_at. split.
  - destruct (Nat.leb_spec start (length s)) as [Hs|Hs]; [|discriminate].
    intros H. apply find_from_Some in H as (j & -> & Hj & Hsw & Hk).
    rewrite length_drop in Hj. rewrite drop_drop in Hsw.
    split; [lia|]. split; [exact Hsw|].
    intros k [Hk1 Hk2].
    replace k with (start + (k - start)) by lia.
    rewrite <- drop_drop. apply Hk. lia.
  - intros ((H1 & H2) & Hsw & Hk).
    destruct (Nat.leb_spec start (length s)) as [Hs|Hs]; [|lia].
    replace i with (start + (i - start)) by lia.
    apply find_from_first.
    + rewrite length_drop. lia.
    + rewrite drop_drop. now replace (start + (i - start)) with i by lia.
    + intros k Hlt. rewrite drop_drop. apply Hk. lia.
Qed.

Lemma find_None sub s start :
  Py.find sub s start = None <-> absent_from sub s start.
Proof.
  unfold absent_from. split.
  - intros H k [Hk1 Hk2]. unfold Py.find in H.
    destruct (Nat.leb_spec start (length s)) as [Hs|Hs]; [|lia].
    replace k with (start + (k - start)) by lia.
    rewrite <- drop_drop. apply (find_from_None _ _ _ H).
    rewrite length_drop. lia.
  - intros H. destruct (Py.find sub s start) as [i|] eqn:E; [|reflexivity].
    apply find_Some in E as ((H1 & H2) & Hsw & _).
    rewrite H in Hsw by lia. discriminate.
Qed.

End Searching.

(** ** Running the migration *)

Lemma replace_weather_route_run (content : Py.str) :
  Py.run replace_weather_route content
  = match Py.find weather_route_marker content 0 with
    | None =>
        (1, {| Py.routes_ts := content;
               Py.printed := ["ERROR: Could not find weather route!"] |})
    | Some ws =>
        match Py.find currency_route_marker content ws with
        | None =>
            (1, {| Py.routes_ts := content;
                   Py.printed := ["ERROR: Could not find currency route!"] |})
        | Some cs =>
            (0, {| Py.routes_ts :=
                     take ws content ++ new_weather_route_text ++ drop cs content;
                   Py.printed :=
                     ["✓ Replaced main weather route with Google Weather API"] |})
        end
    end.
Proof.
  unfold Py.run, replace_weather_route, Py.andthen, Py.read. cbn [Py.routes_ts].
  destruct (Py.find weather_route_marker content 0) as [ws|]; [|reflexivity].
  destruct (Py.find currency_route_marker content ws); reflexivity.
Qed.

Lemma migrate_weather_complete_run (content : Py.str) :
  Py.run migrate_weather_complete content
  = match Py.find weather_route_marker content 0 with
    | None =>
        (1, {| Py.routes_ts := content;
               Py.printed := ["ERROR: Could not find weather route!"] |})
    | Some ws =>
        match Py.find currency_route_marker content ws with
        | None =>
            (1, {| Py.routes_ts := content;
                   Py.printed := ["ERROR: Could not find currency route!"] |})
        | Some cs =>
            (0, {| Py.routes_ts :=
                     renamed (take ws content ++ new_weather_route_text
                                ++ drop cs content);
                   Py.printed :=
                     ["✓ Replaced main weather route with Google Weather API";
                      "✓ Replaced all WEATHER_API_KEY with GOOGLE_API_KEY";
                      "✓ Migration complete!"] |})
        end
    end.
Proof.
  unfold Py.run, migrate_weather_complete, replace_weather_route,
    rename_environment_variables, Py.andthen, Py.read. cbn [Py.routes_ts].
  destruct (Py.find weather_route_marker content 0) as [ws|]; [|reflexivity].
  destruct (Py.find currency_route_marker content ws); reflexivity.
Qed.

(** X15. The migration succeeds exactly when the weather route is in the
    file and the currency route stands at or after its first occurrence; a
    currency route that only comes earlier does not count.  Otherwise the
    script prints one error line, exits with code 1 and leaves the file as it
    was. *)
Theorem migrate_needs_both_routes_in_order (content : Py.str) :
  let r := Py.run migrate_weather_complete content in
  (fst r = 0
   /\ exists ws cs : nat,
        first_at weather_route_marker content 0 ws
        /\ first_at currency_route_marker content ws cs)
  \/ (fst r = 1
      /\ Py.routes_ts (snd r) = content
      /\ Py.printed (snd r) = ["ERROR: Could not find weather route!"]
      /\ absent_from weather_route_marker content 0)
  \/ (fst r = 1
      /\ Py.routes_ts (snd r) = content
      /\ Py.printed (snd r) = ["ERROR: Could not find currency route!"]
      /\ exists ws : nat,
           first_at weather_route_marker content 0 ws
           /\ absent_from currency_route_marker content ws).
Proof.
  intros r. subst r. rewrite migrate_weather_complete_run.
  destruct (Py.find weather_route_marker content 0) as [ws|] eqn:Ew.
  2:{ right; left. apply find_None in Ew. now repeat split. }
  apply find_Some in Ew.
  destruct (Py.find currency_route_marker content ws) as [cs|] eqn:Ec.
  - left. apply find_Some in Ec. split; [reflexivity|]. now exists ws, cs.
  - right; right. apply find_None in Ec.
    split; [reflexivity|]. split; [reflexivity|]. split; [reflexivity|].
    now exists ws.
Qed.

(** A currency route that stands only before the weather route is not
    found. *)
Lemma misordered_routes_rejected :
  Py.run migrate_weather_complete sample_routes_misordered
  = (1, {| Py.routes_ts := sample_routes_misordered;
           Py.printed := ["ERROR: Could not find currency route!"] |}).
Proof. vm_compute. reflexivity. Qed.

(** ** The splice *)

Lemma new_weather_route_starts_with_marker :
  exists rest : Py.str,
    new_weather_route_text = weather_route_marker ++ rest.
Proof. apply startswith_spec. vm_compute. reflexivity. Qed.

Lemma currency_marker_not_in_new_route :
  Py.find_from currency_route_marker
    (new_weather_route_text ++ currency_route_marker) 0
  = Some (length new_weather_route_text).
Proof. vm_compute. reflexivity. Qed.

Lemma first_at_decompose (sub s : Py.str) (start i : nat) :
  first_at sub s start i ->
  exists t : Py.str, drop i s = sub ++ t /\ s = take i s ++ sub ++ t.
Proof.
  intros (_ & H & _). apply startswith_spec in H as [t Ht].
  exists t. split; [exact Ht|]. now rewrite <- Ht, take_drop.
Qed.

Section Splice.

Variables (content : Py.str) (ws cs : nat).
Hypothesis (Hw : first_at weather_route_marker content 0 ws).
Hypothesis (Hc : first_at currency_route_marker content ws cs).

(** The text of the first write. *)
Local Abbreviation spliced :=
  (take ws content ++ new_weather_route_text ++ drop cs content).

Lemma spliced_length_before : ws = length (take ws content).
Proof. destruct Hw as ((_ & H) & _). rewrite length_take. lia. Qed.

Lemma spliced_weather_route_first :
  first_at weather_route_marker spliced 0 ws.
Proof.
  pose proof spliced_length_before as Hlen.
  destruct new_weather_route_starts_with_marker as [rest Hrest].
  destruct (first_at_decompose _ _ _ _ Hw) as (t & Ht & _).
  destruct Hw as ((_ & Hws) & _ & Hk).
  split; [|split].
  - rewrite !length_app, <- Hlen. lia.
  - rewrite drop_app_length' by exact Hlen.
    rewrite Hrest, <- app_assoc. apply startswith_app.
  - intros k [_ Hlt]. specialize (Hk k (conj (Nat.le_0_l _) Hlt)).
    rewrite drop_app_le by lia.
    rewrite Hrest, <- app_assoc, app_assoc.
    rewrite startswith_window by (rewrite length_app; lia).
    rewrite <- (take_drop ws content), drop_app_le, Ht, app_assoc in Hk by lia.
    rewrite startswith_window in Hk by (rewrite length_app; lia).
    exact Hk.
Qed.

Lemma spliced_currency_route_first :
  first_at currency_route_marker spliced ws
    (ws + length new_weather_route_text).
Proof.
  pose proof spliced_length_before as Hlen.
  destruct (first_at_decompose _ _ _ _ Hc) as (t & Ht & _).
  assert (Hdrop : forall j : nat,
             j <= length new_weather_route_text ->
             drop (ws + j) spliced
             = drop j new_weather_route_text ++ drop cs content).
  { intros j Hj.
    rewrite <- drop_drop, drop_app_length' by exact Hlen.
    now rewrite drop_app_le. }
  split; [|split].
  - rewrite !length_app, <- Hlen. lia.
  - rewrite Hdrop by lia. rewrite drop_all. cbn [app].
    rewrite Ht. apply startswith_app.
  - intros k [Hk1 Hk2].
    replace k with (ws + (k - ws)) by lia. rewrite Hdrop by lia.
    rewrite Ht, app_assoc.
    rewrite startswith_window
      by (rewrite length_app; lia).
    destruct (find_from_Some _ _ _ _ currency_marker_not_in_new_route)
      as (j & Hj & _ & _ & Hnone).
    cbn [Nat.add] in Hj. subst j.
    rewrite <- drop_app_le by lia. apply Hnone. lia.
Qed.

Lemma spliced_again :
  take ws spliced ++ new_weather_route_text
    ++ drop (ws + length new_weather_route_text) spliced
  = spliced.
Proof.
  pose proof spliced_length_before as Hlen.
  rewrite take_app_length' by exact Hlen.
  rewrite <- drop_drop, drop_app_length' by exact Hlen.
  now rewrite drop_app_length.
Qed.

End Splice.

(** X16. Replacing the weather route is idempotent: once it has succeeded,
    running it again on its own output succeeds and writes the same text. *)
Theorem replace_weather_route_idempotent (content : Py.str) :
  fst (Py.run replace_weather_route content) = 0 ->
  Py.run replace_weather_route
    (Py.routes_ts (snd (Py.run replace_weather_route content)))
  = Py.run replace_weather_route content.
Proof.
  rewrite (replace_weather_route_run content).
  destruct (Py.find weather_route_marker content 0) as [ws|] eqn:Ew;
    [|discriminate].
  destruct (Py.find currency_route_marker content ws) as [cs|] eqn:Ec;
    [|discriminate].
  intros _. cbn [snd Py.routes_ts].
  apply find_Some in Ew, Ec.
  rewrite replace_weather_route_run.
  rewrite (proj2 (find_Some _ _ _ _) (spliced_weather_route_first content ws cs Ew)).
  rewrite (proj2 (find_Some _ _ _ _)
             (spliced_currency_route_first content ws cs Ew Ec)).
  now rewrite (spliced_again content ws cs Ew).
Qed.

Lemma replace_weather_route_idempotent_witness :
  fst (Py.run replace_weather_route sample_routes) = 0
  /\ Py.run replace_weather_route
       (Py.routes_ts (snd (Py.run replace_weather_route sample_routes)))
     = Py.run replace_weather_route sample_routes.
Proof.
  split; [vm_compute; reflexivity|].
  apply (replace_weather_route_idempotent sample_routes).
  vm_compute; reflexivity.
Defined.

(** ** Replacing *)

Section Replacing.

(** The pattern is not empty: [old = o :: old']. *)
Variables (o : ascii) (old' new : Py.str).

Local Abbreviation old := (o :: old').
Local Abbreviation scan := (Py.replace_from (o :: old') new).

Lemma replace_from_nil (k : nat) : scan k [] = [].
Proof. reflexivity. Qed.

Lemma replace_from_unfold (c : ascii) (s : Py.str) :
  scan 0 (c :: s)
  = if Py.startswith old (c :: s) then new ++ scan (length old') s
    else c :: scan 0 s.
Proof. cbn [Py.replace_from length Nat.sub]. now rewrite Nat.sub_0_r. Qed.

Lemma replace_from_skip (x t : Py.str) : scan (length x) (x ++ t) = scan 0 t.
Proof. induction x as [|a x IH]; [now destruct t|]. exact IH. Qed.

Lemma replace_from_match (t : Py.str) : scan 0 (old ++ t) = new ++ scan 0 t.
Proof.
  change (old ++ t) with (o :: (old' ++ t)).
  rewrite replace_from_unfold.
  change (o :: (old' ++ t)) with (old ++ t).
  now rewrite startswith_app, replace_from_skip.
Qed.

Lemma replace_from_head (c : ascii) (s : Py.str) :
  c <> o -> scan 0 (c :: s) = c :: scan 0 s.
Proof.
  intros H. rewrite replace_from_unfold. cbn [Py.startswith].
  destruct (Ascii.eqb_spec o c) as [->|_]; [congruence | reflexivity].
Qed.

(** Where the pattern stands nowhere, nothing is replaced. *)
Lemma replace_from_identity (s : Py.str) :
  (forall k : nat, Py.startswith old (drop k s) = false) -> scan 0 s = s.
Proof.
  induction s as [|c s IH]; intros H; [reflexivity|].
  pose proof (H 0) as H0. rewrite drop_0 in H0.
  rewrite replace_from_unfold, H0. f_equal.
  apply IH. intros k. apply (H (S k)).
Qed.

Lemma startswith_app_foreign (q a b : Py.str) :
  foreign q b ->
  q <> [] ->
  Py.startswith q (a ++ b) = Py.startswith q a.
Proof.
  revert a. induction q as [|x q IH]; intros a Hb Hq; [congruence|].
  destruct a as [|y a].
  - cbn [app]. destruct b as [|c b]; [reflexivity|].
    cbn. destruct (Ascii.eqb_spec x c) as [->|_]; [|reflexivity].
    exfalso. apply Hb. now left.
  - cbn. destruct q as [|x' q]; [now destruct (Ascii.eqb x y)|].
    rewrite IH; [reflexivity | | discriminate].
    destruct b as [|c b]; [exact I|].
    intros Hin. apply Hb. now right.
Qed.

(** Replacement distributes over a concatenation whose second part is
    foreign at its head: no occurrence can straddle the joint. *)
Lemma replace_from_app (a b : Py.str) (k : nat) :
  k <= length a -> foreign old b ->
  scan k (a ++ b) = scan k a ++ scan 0 b.
Proof.
  intros Hk Hb. revert k Hk.
  induction a as [|y a IH]; intros k Hk.
  - cbn in Hk. replace k with 0 by lia. reflexivity.
  - destruct k as [|k].
    + change ((y :: a) ++ b) with (y :: (a ++ b)).
      rewrite !replace_from_unfold.
      change (y :: (a ++ b)) with ((y :: a) ++ b).
      rewrite (startswith_app_foreign old (y :: a) b Hb) by discriminate.
      destruct (Py.startswith old (y :: a)) eqn:E.
      * apply startswith_length in E. cbn in E.
        rewrite IH by lia. now rewrite app_assoc.
      * rewrite IH by lia. reflexivity.
    + cbn in Hk. apply (IH k). lia.
Qed.

(** The replaced text never grows shorter when the replacement is at least
    as long as the pattern, and grows when the pattern stands somewhere. *)
Lemma replace_from_length (s : Py.str) (k : nat) :
  length old <= length new ->
  length s <= length (scan k s) + k.
Proof.
  intros Hlen. revert k. induction s as [|c s IH]; intros k; [cbn; lia|].
  destruct k as [|k].
  - rewrite replace_from_unfold.
    destruct (Py.startswith old (c :: s)).
    + rewrite length_app. specialize (IH (length old')). cbn in *. lia.
    + specialize (IH 0). cbn in *. lia.
  - specialize (IH k). cbn in *. lia.
Qed.

Lemma replace_from_longer (s : Py.str) (k i : nat) :
  length old < length new ->
  k <= i -> Py.startswith old (drop i s) = true ->
  length s < length (scan k s) + k.
Proof.
  intros Hlen. revert k i. induction s as [|c s IH]; intros k i Hk Hs.
  - rewrite drop_nil in Hs. discriminate.
  - destruct k as [|k].
    + rewrite replace_from_unfold.
      destruct (Py.startswith old (c :: s)) eqn:E.
      * rewrite length_app.
        pose proof (replace_from_length s (length old')) as L.
        cbn in *. lia.
      * destruct i as [|i]; [rewrite drop_0 in Hs; congruence|].
        specialize (IH 0 i ltac:(lia) Hs). cbn in *. lia.
    + destruct i as [|i]; [lia|].
      specialize (IH k i ltac:(lia) Hs). cbn in *. lia.
Qed.

(** *** When the replacement begins with a character foreign to the rest
    of the pattern *)

Variables (g : ascii) (new' : Py.str).
Hypothesis (Hnew : new = g :: new').

(** A prefix without [g] read off the replaced text is already in the
    original. *)
Lemma startswith_replaced (p s : Py.str) :
  g ∉ p ->
  Py.startswith p (scan 0 s) = true -> Py.startswith p s = true.
Proof.
  revert s. induction p as [|a p IH]; intros s Hg H; [reflexivity|].
  destruct s as [|c s]; [discriminate|].
  rewrite replace_from_unfold in H.
  destruct (Py.startswith old (c :: s)) eqn:E.
  - rewrite Hnew in H. cbn in H. apply andb_prop in H as [H _].
    apply Ascii.eqb_eq in H. subst a. exfalso. apply Hg. now left.
  - cbn in H |- *. apply andb_prop in H as [-> H]. cbn.
    apply IH; [|exact H]. intros Hin. apply Hg. now right.
Qed.

Lemma startswith_app_replaced (x p t : Py.str) :
  g ∉ p ->
  Py.startswith p (x ++ scan 0 t) = true -> Py.startswith p (x ++ t) = true.
Proof.
  revert p. induction x as [|a x IH]; intros p Hg H.
  - now apply startswith_replaced.
  - destruct p as [|b p]; [reflexivity|].
    cbn in H |- *. apply andb_prop in H as [-> H]. cbn.
    apply IH; [|exact H]. intros Hin. apply Hg. now right.
Qed.

Lemma no_match_after_replacing (c : ascii) (s : Py.str) :
  g ∉ old' ->
  Py.startswith old (c :: s) = false ->
  Py.startswith old (c :: scan 0 s) = false.
Proof.
  intros Hg E. destruct (Py.startswith old (c :: scan 0 s)) eqn:F;
    [|reflexivity].
  cbn in F. apply andb_prop in F as [Hoc F].
  apply (startswith_replaced old' s Hg) in F.
  cbn in E. now rewrite Hoc, F in E.
Qed.

(** The replaced text is free of the pattern, provided no occurrence can
    begin inside a replacement. *)
Lemma replace_from_clean (s : Py.str) (k i : nat) :
  g ∉ old' ->
  (forall (j : nat) (t : Py.str),
      j < length new -> Py.startswith old (drop j new ++ t) = false) ->
  Py.startswith old (drop i (scan k s)) = false.
Proof.
  intros Hg Hin. revert k i.
  induction s as [|c s IH]; intros k i;
    [now rewrite replace_from_nil, drop_nil|].
  destruct k as [|k]; [|apply IH].
  rewrite replace_from_unfold.
  destruct (Py.startswith old (c :: s)) eqn:E.
  - destruct (Nat.lt_ge_cases i (length new)) as [Hi|Hi].
    + rewrite drop_app_le by lia. now apply Hin.
    + rewrite drop_app_ge by lia. apply IH.
  - destruct i as [|i]; [|apply IH].
    rewrite drop_0. now apply no_match_after_replacing.
Qed.

(** *** When the replacement is the pattern behind a prefix *)

Variables (pre : Py.str).
Hypothesis (Hpre : new = pre ++ old).
Hypothesis (Hpre_o : o ∉ pre).

Lemma replace_from_prefix (x t : Py.str) :
  o ∉ x -> scan 0 (x ++ t) = x ++ scan 0 t.
Proof.
  induction x as [|a x IH]; intros Hx; [reflexivity|].
  cbn [app]. rewrite replace_from_head.
  - f_equal. apply IH. intros Hin. apply Hx. now right.
  - intros ->. apply Hx. now left.
Qed.

(** Replacing a second time puts the prefix in front once more. *)
Lemma replace_from_twice (s : Py.str) (k : nat) :
  g ∉ old' ->
  scan 0 (scan k s) = Py.replace_from old (pre ++ new) k s.
Proof.
  intros Hg. revert k. induction s as [|c s IH]; intros k; [reflexivity|].
  destruct k as [|k]; [|apply IH].
  rewrite replace_from_unfold.
  cbn [Py.replace_from length Nat.sub]. rewrite Nat.sub_0_r.
  destruct (Py.startswith old (c :: s)) eqn:E.
  - replace (new ++ scan (length old') s)
      with (pre ++ old ++ scan (length old') s)
      by (now rewrite Hpre, <- app_assoc).
    rewrite replace_from_prefix by exact Hpre_o.
    rewrite replace_from_match, IH. now rewrite <- app_assoc.
  - rewrite replace_from_unfold.
    rewrite (no_match_after_replacing c s Hg E). now rewrite IH.
Qed.

(** Replacing does not bring in a pattern [p] that has neither [g] nor,
    at its head, a character of the prefix. *)
Lemma absent_after_replacing (ph : ascii) (p' s : Py.str) (k : nat) :
  g ∉ ph :: p' ->
  ph ∉ pre ->
  (forall i : nat, Py.startswith (ph :: p') (drop i s) = false) ->
  forall i : nat, Py.startswith (ph :: p') (drop i (scan k s)) = false.
Proof.
  intros Hg Hph. revert k.
  induction s as [|c s IH]; intros k H i;
    [now rewrite replace_from_nil, drop_nil|].
  assert (Hs : forall i, Py.startswith (ph :: p') (drop i s) = false)
    by (intros j; apply (H (S j))).
  destruct k as [|k]; [|now apply IH].
  rewrite replace_from_unfold.
  destruct (Py.startswith old (c :: s)) eqn:E.
  - apply startswith_spec in E as [t Et].
    injection Et as -> ->.
    rewrite replace_from_skip.
    replace (new ++ scan 0 t) with (pre ++ old ++ scan 0 t)
      by (now rewrite Hpre, <- app_assoc).
    destruct (Nat.lt_ge_cases i (length pre)) as [Hi|Hi].
    + rewrite drop_app_le by lia.
      destruct (drop i pre) as [|a x] eqn:Ed.
      { apply (f_equal length) in Ed. rewrite length_drop in Ed.
        cbn in Ed. lia. }
      cbn. destruct (Ascii.eqb_spec ph a) as [->|_]; [|reflexivity].
      exfalso. apply Hph. apply (subseteq_drop i pre). rewrite Ed. now left.
    + rewrite drop_app_ge by lia.
      destruct (Nat.le_gt_cases (i - length pre) (length old)) as [Hj|Hj].
      * rewrite drop_app_le by exact Hj.
        destruct (Py.startswith (ph :: p')
                    (drop (i - length pre) old ++ scan 0 t)) eqn:F;
          [|reflexivity].
        apply (startswith_app_replaced _ _ _ Hg) in F.
        rewrite <- drop_app_le in F by exact Hj.
        change ((o :: old') ++ t) with (o :: old' ++ t) in F.
        now rewrite H in F.
      * rewrite drop_app_ge by lia.
        pose proof (IH (length old') Hs (i - length pre - length old)) as G.
        now rewrite replace_from_skip in G.
  - destruct i as [|i]; [|now apply IH].
    rewrite drop_0.
    destruct (Py.startswith (ph :: p') (c :: scan 0 s)) eqn:F; [|reflexivity].
    apply (startswith_app_replaced [c] _ _ Hg) in F.
    specialize (H 0). rewrite drop_0 in H. cbn [app] in F. congruence.
Qed.

End Replacing.

(** ** The renames *)

Ltac not_in_text :=
  let H := fresh in
  intros H;
  repeat (apply elem_of_cons in H as [H|H]; [discriminate H|]);
  now apply elem_of_nil in H.

Lemma renamed_scan (content : Py.str) :
  renamed content
  = Py.replace_from old_provider new_provider 0
      (Py.replace_from old_key new_key 0 content).
Proof. reflexivity. Qed.

Lemma after_rename_renamed (content : Py.str) :
  after_rename content = renamed content.
Proof. reflexivity. Qed.

(** No occurrence of the old key begins inside the new key. *)
Lemma old_key_not_in_new_key (j : nat) (t : Py.str) :
  j < length new_key -> Py.startswith old_key (drop j new_key ++ t) = false.
Proof.
  intros Hj. do 26 (destruct j as [|j]; [reflexivity|]).
  cbn in Hj. lia.
Qed.

Lemma key_replaced_clean (s : Py.str) (i : nat) :
  Py.startswith old_key (drop i (Py.replace_from old_key new_key 0 s)) = false.
Proof.
  apply (replace_from_clean "p"%char (Py.lit "rocess.env.WEATHER_API_KEY")
           new_key "p"%char (Py.lit "rocess.env.GOOGLE_API_KEY") eq_refl).
  - not_in_text.
  - apply old_key_not_in_new_key.
Qed.

Lemma renamed_clean (s : Py.str) (i : nat) :
  Py.startswith old_key (drop i (renamed s)) = false.
Proof.
  rewrite renamed_scan.
  apply (absent_after_replacing "W"%char (Py.lit "EATHER_PROVIDER")
           new_provider "G"%char (Py.lit "OOGLE_WEATHER_PROVIDER") eq_refl
           (Py.lit "GOOGLE_") eq_refl
           "p"%char (Py.lit "rocess.env.WEATHER_API_KEY")).
  - not_in_text.
  - not_in_text.
  - apply key_replaced_clean.
Qed.

(** X18. After a successful migration the file mentions
    [process.env.WEATHER_API_KEY] nowhere: every occurrence was renamed, and
    neither the inserted route nor the second rename brings one in. *)
Theorem no_old_key_after_migration (content : Py.str) :
  fst (Py.run migrate_weather_complete content) = 0 ->
  Py.find old_key
    (Py.routes_ts (snd (Py.run migrate_weather_complete content))) 0
  = None.
Proof.
  rewrite migrate_weather_complete_run.
  destruct (Py.find weather_route_marker content 0) as [ws|]; [|discriminate].
  destruct (Py.find currency_route_marker content ws) as [cs|];
    [|discriminate].
  intros _. cbn [snd Py.routes_ts].
  apply find_None. intros k _. apply renamed_clean.
Qed.

Lemma no_old_key_after_migration_witness :
  Py.find old_key sample_routes 0 = Some 144
  /\ Py.find old_key
       (Py.routes_ts (snd (Py.run migrate_weather_complete sample_routes))) 0
     = None.
Proof.
  split; [vm_compute; reflexivity|].
  apply (no_old_key_after_migration sample_routes).
  vm_compute; reflexivity.
Defined.

Lemma key_scan_identity (s : Py.str) :
  (forall k : nat, Py.startswith old_key (drop k s) = false) ->
  Py.replace_from old_key new_key 0 s = s.
Proof.
  exact (replace_from_identity "p"%char (Py.lit "rocess.env.WEATHER_API_KEY")
           new_key s).
Qed.

Lemma provider_scan_identity (s : Py.str) :
  (forall k : nat, Py.startswith old_provider (drop k s) = false) ->
  Py.replace_from old_provider new_provider 0 s = s.
Proof.
  exact (replace_from_identity "W"%char (Py.lit "EATHER_PROVIDER")
           new_provider s).
Qed.

Lemma provider_scan_twice (s : Py.str) :
  Py.replace_from old_provider new_provider 0
    (Py.replace_from old_provider new_provider 0 s)
  = Py.replace_from old_provider (Py.lit "GOOGLE_GOOGLE_WEATHER_PROVIDER") 0 s.
Proof.
  apply (replace_from_twice "W"%char (Py.lit "EATHER_PROVIDER")
           new_provider "G"%char (Py.lit "OOGLE_WEATHER_PROVIDER") eq_refl
           (Py.lit "GOOGLE_") eq_refl).
  - not_in_text.
  - not_in_text.
Qed.

Lemma provider_scan_longer (s : Py.str) (i : nat) :
  Py.startswith old_provider (drop i s) = true ->
  length s < length (Py.replace_from old_provider new_provider 0 s).
Proof.
  intros H.
  pose proof (replace_from_longer "W"%char (Py.lit "EATHER_PROVIDER")
                new_provider s 0 i) as L.
  rewrite Nat.add_0_r in L. apply L; [cbn; lia | lia | exact H].
Qed.

Lemma key_scan_app (a b : Py.str) :
  foreign old_key b ->
  Py.replace_from old_key new_key 0 (a ++ b)
  = Py.replace_from old_key new_key 0 a ++ Py.replace_from old_key new_key 0 b.
Proof.
  intros H.
  apply (replace_from_app "p"%char (Py.lit "rocess.env.WEATHER_API_KEY"));
    [lia | exact H].
Qed.

Lemma provider_scan_app (a b : Py.str) :
  foreign old_provider b ->
  Py.replace_from old_provider new_provider 0 (a ++ b)
  = Py.replace_from old_provider new_provider 0 a
      ++ Py.replace_from old_provider new_provider 0 b.
Proof.
  intros H.
  apply (replace_from_app "W"%char (Py.lit "EATHER_PROVIDER"));
    [lia | exact H].
Qed.

Lemma key_scan_blank (s : Py.str) :
  Py.replace_from old_key new_key 0 (" "%char :: s)
  = " "%char :: Py.replace_from old_key new_key 0 s.
Proof. reflexivity. Qed.

Lemma renamed_twice (s : Py.str) :
  renamed (renamed s)
  = Py.replace old_provider (Py.lit "GOOGLE_GOOGLE_WEATHER_PROVIDER")
      (Py.replace old_key new_key s).
Proof.
  rewrite (renamed_scan (renamed s)).
  rewrite (key_scan_identity (renamed s)) by (intros k; apply renamed_clean).
  rewrite renamed_scan. apply provider_scan_twice.
Qed.

(** X19. The renames are not idempotent.  Run a second time, they turn every
    [WEATHER_PROVIDER] of the original file into
    [GOOGLE_GOOGLE_WEATHER_PROVIDER] (the key is renamed once only).  The
    second run leaves the file alone only if it does not mention
    [WEATHER_PROVIDER]; otherwise the file grows again. *)
Theorem second_rename_stacks_prefix (content : Py.str) :
  after_rename (after_rename content)
  = Py.replace old_provider (Py.lit "GOOGLE_GOOGLE_WEATHER_PROVIDER")
      (Py.replace old_key new_key content)
  /\ ((Py.find old_provider (after_rename content) 0 = None
       /\ after_rename (after_rename content) = after_rename content)
      \/ (exists i : nat,
            Py.find old_provider (after_rename content) 0 = Some i
            /\ length (after_rename content)
               < length (after_rename (after_rename content)))).
Proof.
  change after_rename with renamed. split; [apply renamed_twice|].
  assert (E : renamed (renamed content)
              = Py.replace_from old_provider new_provider 0 (renamed content)).
  { rewrite (renamed_scan (renamed content)).
    now rewrite (key_scan_identity (renamed content))
      by (intros k; apply renamed_clean). }
  rewrite E.
  destruct (Py.find old_provider (renamed content) 0) as [i|] eqn:F.
  - right. exists i. split; [reflexivity|].
    apply find_Some in F as (_ & F & _).
    now apply (provider_scan_longer _ i).
  - left. split; [reflexivity|].
    apply provider_scan_identity.
    intros k. destruct (Nat.le_gt_cases k (length (renamed content))) as [Hk|Hk].
    + apply find_None in F. apply F. lia.
    + now rewrite drop_ge by lia.
Qed.

(** ** What the migration writes *)

Lemma key_scan_route :
  Py.replace_from old_key new_key 0 new_weather_route_text
  = new_weather_route_text.
Proof. vm_compute. reflexivity. Qed.

Lemma provider_scan_route :
  Py.replace_from old_provider new_provider 0 new_weather_route_text
  = new_weather_route_text.
Proof. vm_compute. reflexivity. Qed.

Lemma new_weather_route_head :
  exists rest : Py.str, new_weather_route_text = " "%char :: rest.
Proof. eexists. vm_compute. reflexivity. Qed.

(** The renames go through a splice whose joints begin with a blank. *)
Lemma renamed_splice (before after : Py.str) :
  renamed (before ++ new_weather_route_text ++ " "%char :: after)
  = renamed before ++ new_weather_route_text ++ renamed (" "%char :: after).
Proof.
  destruct new_weather_route_head as [rest Hrest].
  assert (Hk : foreign old_key (" "%char :: after)) by (cbn; not_in_text).
  assert (Hp : foreign old_provider (" "%char :: after)) by (cbn; not_in_text).
  rewrite !renamed_scan.
  rewrite key_scan_app by (rewrite Hrest; cbn; not_in_text).
  rewrite key_scan_app by exact Hk.
  rewrite key_scan_route, key_scan_blank.
  rewrite provider_scan_app by (rewrite Hrest; cbn; not_in_text).
  rewrite provider_scan_app by (cbn; not_in_text).
  now rewrite provider_scan_route.
Qed.

(** X17. What a successful migration writes: the text before the first
    weather route and the text from the currency route on, each with the two
    renames applied, and between them the new route, verbatim.  The old
    route, from its marker up to the currency route, is gone. *)
Theorem migration_result (content : Py.str) :
  fst (Py.run migrate_weather_complete content) = 0 ->
  exists ws cs : nat,
    first_at weather_route_marker content 0 ws
    /\ first_at currency_route_marker content ws cs
    /\ Py.routes_ts (snd (Py.run migrate_weather_complete content))
       = renamed (take ws content) ++ new_weather_route_text
           ++ renamed (drop cs content).
Proof.
  rewrite migrate_weather_complete_run.
  destruct (Py.find weather_route_marker content 0) as [ws|] eqn:Ew;
    [|discriminate].
  destruct (Py.find currency_route_marker content ws) as [cs|] eqn:Ec;
    [|discriminate].
  intros _. cbn [snd Py.routes_ts].
  apply find_Some in Ew, Ec. exists ws, cs.
  split; [exact Ew|]. split; [exact Ec|].
  destruct (first_at_decompose _ _ _ _ Ec) as (t & Ht & _).
  rewrite Ht.
  change (currency_route_marker ++ t)
    with (" "%char :: (Py.lit " app.get('/api/v1/currency'" ++ t)).
  apply renamed_splice.
Qed.

Lemma migration_result_witness :
  exists ws cs : nat,
    first_at weather_route_marker sample_routes 0 ws
    /\ first_at currency_route_marker sample_routes ws cs
    /\ Py.routes_ts (snd (Py.run migrate_weather_complete sample_routes))
       = renamed (take ws sample_routes) ++ new_weather_route_text
           ++ renamed (drop cs sample_routes).
Proof.
  apply (migration_result sample_routes). vm_compute. reflexivity.
Defined.

(** ** remove_post_routes.py *)

Lemma remove_post_routes_run (content : Py.str) :
  Py.run remove_post_routes content
  = match Py.find first_post_marker content 0 with
    | None =>
        (1, {| Py.routes_ts := content;
               Py.printed := ["ERROR: Could not find first POST weather route!"] |})
    | Some first =>
        match Py.find second_post_marker content first with
        | None =>
            (1, {| Py.routes_ts := content;
                   Py.printed :=
                     ["ERROR: Could not find second POST weather route!"] |})
        | Some second =>
            match Py.find trips_sync_marker content second with
            | None =>
                (1, {| Py.routes_ts := content;
                       Py.printed := ["ERROR: Could not find trips/sync route!"] |})
            | Some trips =>
                (0, {| Py.routes_ts := take first content ++ drop trips content;
                       Py.printed :=
                         ["✓ Removed POST /api/tools/weather route";
                          "✓ Removed POST /api/tools/weather/test route";
                          "✓ All Open-Meteo code removed!"] |})
            end
        end
    end.
Proof.
  unfold Py.run, remove_post_routes, Py.andthen, Py.read. cbn [Py.routes_ts].
  destruct (Py.find first_post_marker content 0) as [first|]; [|reflexivity].
  destruct (Py.find second_post_marker content first) as [second|];
    [|reflexivity].
  destruct (Py.find trips_sync_marker content second); reflexivity.
Qed.

(** Two patterns that differ within their first [n] characters do not stand
    at the same place. *)
Lemma startswith_clash (m m' t : Py.str) (n : nat) :
  n <= length m -> n <= length m' -> take n m <> take n m' ->
  Py.startswith m t = true -> Py.startswith m' t = true -> False.
Proof.
  intros Hn Hn' Hne H H'.
  apply startswith_spec in H as [u ->].
  apply startswith_spec in H' as [u' E].
  apply Hne. apply (f_equal (take n)) in E.
  now rewrite !take_app_le in E by lia.
Qed.

(** X20. Removing the POST routes needs the three markers one after the
    other: the first POST route, then the test route, then the trips route.
    Then everything from the first POST route up to the trips route is cut
    out, so that the trips route begins where the first POST route began and
    the file is strictly shorter.  Otherwise one error line is printed, the
    exit code is 1 and the file stays as it was. *)
Theorem remove_post_routes_outcome (content : Py.str) :
  let r := Py.run remove_post_routes content in
  (fst r = 0
   /\ exists first second trips : nat,
        first_at first_post_marker content 0 first
        /\ first_at second_post_marker content first second
        /\ first_at trips_sync_marker content second trips
        /\ first < second < trips
        /\ Py.routes_ts (snd r) = take first content ++ drop trips content
        /\ Py.startswith trips_sync_marker (drop first (Py.routes_ts (snd r)))
           = true
        /\ length (Py.routes_ts (snd r)) + (trips - first) = length content)
  \/ (fst r = 1
      /\ Py.routes_ts (snd r) = content
      /\ ((Py.printed (snd r)
           = ["ERROR: Could not find first POST weather route!"]
           /\ absent_from first_post_marker content 0)
          \/ (exists first : nat,
                Py.printed (snd r)
                = ["ERROR: Could not find second POST weather route!"]
                /\ first_at first_post_marker content 0 first
                /\ absent_from second_post_marker content first)
          \/ (exists first second : nat,
                Py.printed (snd r) = ["ERROR: Could not find trips/sync route!"]
                /\ first_at first_post_marker content 0 first
                /\ first_at second_post_marker content first second
                /\ absent_from trips_sync_marker content second))).
Proof.
  intros r. subst r. rewrite remove_post_routes_run.
  destruct (Py.find first_post_marker content 0) as [first|] eqn:E1.
  2:{ right. split; [reflexivity|]. split; [reflexivity|]. left.
      apply find_None in E1. now split. }
  destruct (Py.find second_post_marker content first) as [second|] eqn:E2.
  2:{ right. split; [reflexivity|]. split; [reflexivity|]. right; left.
      apply find_Some in E1. apply find_None in E2. now exists first. }
  destruct (Py.find trips_sync_marker content second) as [trips|] eqn:E3.
  2:{ right. split; [reflexivity|]. split; [reflexivity|]. right; right.
      apply find_Some in E1, E2. apply find_None in E3.
      now exists first, second. }
  left. split; [reflexivity|]. cbn [snd Py.routes_ts].
  apply find_Some in E1, E2, E3. exists first, second, trips.
  split; [exact E1|]. split; [exact E2|]. split; [exact E3|].
  destruct E1 as ((_ & L1) & S1 & _).
  destruct E2 as ((L2 & L2') & S2 & _).
  destruct E3 as ((L3 & L3') & S3 & _).
  assert (N12 : first <> second).
  { intros ->.
    apply (startswith_clash first_post_marker second_post_marker
             (drop second content) 31); try assumption;
      try (vm_compute; lia). vm_compute. discriminate. }
  assert (N23 : second <> trips).
  { intros ->.
    apply (startswith_clash second_post_marker trips_sync_marker
             (drop trips content) 19); try assumption;
      try (vm_compute; lia). vm_compute. discriminate. }
  split; [lia|]. split; [reflexivity|].
  assert (Hlen : first = length (take first content))
    by (rewrite length_take; lia).
  split.
  - now rewrite drop_app_length' by exact Hlen.
  - rewrite length_app, length_take, length_drop. lia.
Qed.

(** ** Matching a definition *)

Section Matching.

Implicit Types s t rest : Py.str.

Lemma match_chars (cs : Py.str) (r : Re.regex) s :
  Re.match_here ((Re.Char <$> cs) ++ r) s
  = if Py.startswith cs s then Re.match_here r (drop (length cs) s) else None.
Proof.
  revert s. induction cs as [|c cs IH]; intros s; [reflexivity|].
  destruct s as [|x s]; [reflexivity|].
  cbn. destruct (Ascii.eqb c x); [apply IH | reflexivity].
Qed.

Lemma skip_while_span (f : ascii -> bool) s :
  exists a : Py.str, s = a ++ skip_while f s /\ forallb f a = true.
Proof.
  induction s as [|x s (a & Ha & Hf)]; [now exists []|].
  cbn. destruct (f x) eqn:E; [|now exists []].
  exists (x :: a). cbn. rewrite E, Hf. split; [now f_equal | reflexivity].
Qed.

Lemma skip_while_head (f : ascii -> bool) s :
  match skip_while f s with [] => True | c :: _ => f c = false end.
Proof.
  induction s as [|x s IH]; [exact I|].
  cbn. destruct (f x) eqn:E; [exact IH | exact E].
Qed.

Lemma skip_while_app (f : ascii -> bool) (a t : Py.str) :
  forallb f a = true ->
  match t with [] => True | c :: _ => f c = false end ->
  skip_while f (a ++ t) = t.
Proof.
  intros Ha Ht. induction a as [|x a IH].
  - destruct t as [|c t]; [reflexivity|]. cbn. now rewrite Ht.
  - cbn in Ha |- *. apply andb_prop in Ha as [-> Ha]. now apply IH.
Qed.

Lemma more_newlines s :
  Re.more (Re.Only [CR; LF]) (Re.match_here []) s
  = Some (skip_while is_newline s).
Proof.
  induction s as [|x s IH]; [reflexivity|].
  cbn [Re.more skip_while]. change (Re.member (Re.Only [CR; LF]) x)
    with (is_newline x).
  destruct (is_newline x); [now rewrite IH | reflexivity].
Qed.

Lemma more_until_brace (rest : Py.str -> option Py.str) s :
  rest [] = None ->
  (forall x t, not_brace x = true -> rest (x :: t) = None) ->
  Re.more (Re.Except ["}"%char]) rest s = rest (skip_while not_brace s).
Proof.
  intros Hnil Hrest. induction s as [|x s IH]; [reflexivity|].
  cbn [Re.more skip_while].
  change (Re.member (Re.Except ["}"%char]) x) with (not_brace x).
  destruct (not_brace x) eqn:E; [|reflexivity].
  rewrite IH, (Hrest x s E). now destruct (rest (skip_while not_brace s)).
Qed.

(** The end of the pattern: "};", then every line break that follows, at
    least one. *)
Lemma closing_match t rest :
  Re.match_here closing_pattern t = Some rest
  <-> exists breaks : Py.str,
        t = Py.lit "};" ++ breaks ++ rest
        /\ breaks <> [] /\ forallb is_newline breaks = true
        /\ match rest with [] => True | c :: _ => is_newline c = false end.
Proof.
  unfold closing_pattern, Re.literal. rewrite match_chars. split.
  - destruct (Py.startswith (Py.lit "};") t) eqn:E; [|discriminate].
    apply startswith_spec in E as [u ->].
    rewrite drop_app_length.
    destruct u as [|y u]; [discriminate|].
    cbn [Re.match_here].
    change (Re.member (Re.Only [CR; LF]) y) with (is_newline y).
    destruct (is_newline y) eqn:Ey; [|discriminate].
    rewrite more_newlines. intros [= <-].
    destruct (skip_while_span is_newline u) as (a & Ha & Hf).
    exists (y :: a). split; [|split; [discriminate|split]].
    + cbn [app]. now rewrite <- Ha.
    + cbn [forallb]. now rewrite Ey, Hf.
    + apply skip_while_head.
  - intros (breaks & -> & Hne & Hall & Hrest).
    rewrite startswith_app, drop_app_length.
    destruct breaks as [|y breaks]; [congruence|].
    cbn [forallb] in Hall. apply andb_prop in Hall as [Hy Hall].
    cbn [app Re.match_here].
    change (Re.member (Re.Only [CR; LF]) y) with (is_newline y).
    rewrite Hy, more_newlines. f_equal. now apply skip_while_app.
Qed.

Lemma closing_needs_brace (x : ascii) t :
  not_brace x = true -> Re.match_here closing_pattern (x :: t) = None.
Proof.
  intros H. unfold closing_pattern, Re.literal. rewrite match_chars.
  change (Py.startswith (Py.lit "};") (x :: t))
    with (Ascii.eqb "}"%char x && Py.startswith (Py.lit ";") t).
  destruct (Ascii.eqb_spec "}"%char x) as [<-|_];
    [discriminate H | reflexivity].
Qed.

Lemma definition_pattern_unfold (header : string) s :
  Re.match_here (definition_pattern header) s
  = if Py.startswith (Py.lit header) s
    then match drop (length (Py.lit header)) s with
         | x :: s1 =>
             if not_brace x
             then Re.match_here closing_pattern (skip_while not_brace s1)
             else None
         | [] => None
         end
    else None.
Proof.
  unfold definition_pattern, Re.literal at 1. rewrite match_chars.
  destruct (Py.startswith (Py.lit header) s); [|reflexivity].
  destruct (drop (length (Py.lit header)) s) as [|x s1]; [reflexivity|].
  cbn [app Re.match_here].
  change (Re.member (Re.Except ["}"%char]) x) with (not_brace x).
  destruct (not_brace x); [|reflexivity].
  apply more_until_brace; [reflexivity|].
  intros y t Hy. now apply closing_needs_brace.
Qed.


End Matching.

(** X22. What the two patterns match at a given place: the header, a
    non-empty body without any closing brace, then "};" and all line breaks
    that follow, at least one.  So a match always ends at the first closing
    brace behind the header, and takes the empty lines behind it along. *)
Theorem definition_pattern_matches (header : string) (s rest : Py.str) :
  Re.match_here (definition_pattern header) s = Some rest
  <-> is_definition header s rest.
Proof.
  rewrite definition_pattern_unfold. unfold is_definition. split.
  - destruct (Py.startswith (Py.lit header) s) eqn:E; [|discriminate].
    apply startswith_spec in E as [u ->]. rewrite drop_app_length.
    destruct u as [|x s1]; [discriminate|].
    destruct (not_brace x) eqn:Ex; [|discriminate].
    intros H. apply closing_match in H as (breaks & Ht & Hne & Hall & Hrest).
    destruct (skip_while_span not_brace s1) as (a & Ha & Hf).
    exists (x :: a), breaks.
    split; [|split; [discriminate|split; [|now split]]].
    + cbn [app]. rewrite <- Ht. now rewrite <- Ha.
    + cbn [forallb]. now rewrite Ex, Hf.
  - intros (body & breaks & -> & Hb & Hbody & Hne & Hall & Hrest).
    rewrite startswith_app, drop_app_length.
    destruct body as [|x body]; [congruence|].
    cbn [forallb] in Hbody. apply andb_prop in Hbody as [Hx Hbody].
    cbn [app]. rewrite Hx.
    rewrite (skip_while_app not_brace body) by (exact Hbody || reflexivity).
    apply closing_match. now exists breaks.
Qed.

(** ** Substitution *)

Section Substituting.

Variables (r : Re.regex) (repl : Py.str).

Lemma sub_from_skip (x t : Py.str) :
  Re.sub_from r repl (length x) (x ++ t) = Re.sub_from r repl 0 t.
Proof. induction x as [|a x IH]; [now destruct t|]. exact IH. Qed.

Lemma sub_from_no_match (c : ascii) (s : Py.str) :
  Re.match_here r (c :: s) = None ->
  Re.sub_from r repl 0 (c :: s) = c :: Re.sub_from r repl 0 s.
Proof. intros H. cbn [Re.sub_from]. now rewrite H. Qed.

(** Up to the first place where the pattern matches, the text is kept. *)
Lemma sub_from_keep (pre t : Py.str) :
  (forall k : nat, k < length pre -> Re.match_here r (drop k (pre ++ t)) = None) ->
  Re.sub_from r repl 0 (pre ++ t) = pre ++ Re.sub_from r repl 0 t.
Proof.
  induction pre as [|c pre IH]; intros H; [reflexivity|].
  cbn [app]. rewrite sub_from_no_match by (apply (H 0); cbn; lia).
  f_equal. apply IH. intros k Hk. apply (H (S k)). cbn. lia.
Qed.


(** A match is replaced and the search goes on behind it. *)
Lemma sub_from_match (block rest : Py.str) :
  block <> [] ->
  Re.match_here r (block ++ rest) = Some rest ->
  Re.sub_from r repl 0 (block ++ rest) = repl ++ Re.sub_from r repl 0 rest.
Proof.
  intros Hne H. destruct block as [|c block]; [congruence|].
  cbn [app] in H |- *. cbn [Re.sub_from]. rewrite H. f_equal.
  rewrite length_app.
  replace (length block + length rest - length rest) with (length block)
    by lia.
  apply sub_from_skip.
Qed.

End Substituting.

Lemma definition_needs_header (header : string) (s : Py.str) :
  Py.startswith (Py.lit header) s = false ->
  Re.match_here (definition_pattern header) s = None.
Proof. intros H. now rewrite definition_pattern_unfold, H. Qed.

Lemma sub_definition (header : string) (s : Py.str) :
  Re.sub (definition_pattern header) [] s
  = Re.sub_from (definition_pattern header) [] 0 s.
Proof.
  unfold definition_pattern, Re.sub.
  destruct (Re.literal header ++ _) eqn:E; [|reflexivity].
  destruct (Re.literal header); discriminate.
Qed.

Lemma remove_orphaned_run (content : Py.str) :
  Py.run remove_orphaned content
  = (0, {| Py.routes_ts :=
             Re.sub pattern2 [] (Re.sub pattern1 [] content);
           Py.printed := removal_report |}).
Proof. reflexivity. Qed.




Lemma is_definition_block (header : string) (s rest : Py.str) :
  is_definition header s rest ->
  exists block : Py.str, s = block ++ rest /\ block <> [].
Proof.
  intros (body & breaks & -> & Hb & _ & _ & _ & _).
  exists (Py.lit header ++ body ++ Py.lit "};" ++ breaks).
  split; [now rewrite <- !app_assoc|].
  destruct (Py.lit header); [|discriminate].
  destruct body; [congruence | discriminate].
Qed.

(** X23. Where the first [fetchOM] header of the file opens a definition the
    pattern accepts, the script cuts out that definition with the line
    breaks behind it, keeps the text before it, and goes on in the text
    behind it (the second pattern is then applied to the result). *)
Theorem remove_orphaned_cuts_first_definition (content rest : Py.str)
    (i : nat) :
  first_at (Py.lit fetchOM_header) content 0 i ->
  is_definition fetchOM_header (drop i content) rest ->
  Py.routes_ts (snd (Py.run remove_orphaned content))
  = Re.sub pattern2 [] (take i content ++ Re.sub pattern1 [] rest).
Proof.
  intros (_ & _ & Hfirst) Hdef. rewrite remove_orphaned_run.
  cbn [snd Py.routes_ts]. f_equal. unfold pattern1.
  rewrite !sub_definition.
  destruct (is_definition_block _ _ _ Hdef) as (block & Hblock & Hne).
  rewrite <- (take_drop i content) at 1.
  rewrite sub_from_keep.
  - f_equal. rewrite Hblock. apply sub_from_match; [exact Hne|].
    rewrite <- Hblock. now apply definition_pattern_matches.
  - intros k Hk. rewrite take_drop. apply definition_needs_header.
    apply Hfirst. rewrite length_take in Hk. lia.
Qed.

Lemma remove_orphaned_cuts_first_definition_witness :
  Py.routes_ts (snd (Py.run remove_orphaned sample_orphan))
  = Re.sub pattern2 []
      (take 7 sample_orphan ++ Re.sub pattern1 [] (Py.lit "  b();")).
Proof.
  apply (remove_orphaned_cuts_first_definition sample_orphan (Py.lit "  b();") 7).
  - apply find_Some. vm_compute. reflexivity.
  - exists (Py.lit " get(latNum);" ++ [LF] ++ Py.lit "      "), [LF; LF].
    repeat split; try discriminate.
Defined.


